(** * ccm.testsuite v4: the package walker and the assertion surface

    A shallow embedding of [versions/v4/ccm.testsuite.js] (the [Instance]
    of the component: [ready], [start], [processPackage],
    [runPackageTests], the per-test callback with its [suite] object,
    [setResult] and [showResult]) and of the default test package
    [versions/v4/resources/tests.js].

    The component is modelled without a website area ([self.element]
    absent), so every [if (self.element)] branch is the skipped one. *)

From stdpp Require Import gmap strings list pretty.
From Stdlib Require Import ZArith String Ascii.

Set Warnings "-register-all".

Local Open Scope Z_scope.

(** ** JavaScript values

    The fragment of the language the engine touches: the primitives, arrays
    and plain objects.  An object carries the address it was allocated at
    (its identity for [==] and [===]) next to its own properties in
    insertion order.  Numbers are the integers and [NaN]: fractions,
    infinities and IEEE rounding are outside the fragment, and so are
    functions, symbols and bigints as data. *)

Module JS.

Definition loc := nat.

Inductive number :=
| NaN
| Int (z : Z).

Inductive value :=
| VUndefined
| VNull
| VBool (b : bool)
| VNum (n : number)
| VStr (s : string)
| VArray (l : loc) (elems : list value)
| VObject (l : loc) (props : list (string * value)).

Arguments VArray l%_nat_scope elems%_list_scope.
Arguments VObject l%_nat_scope props%_list_scope.

Inductive type := TUndefined | TNull | TBoolean | TNumber | TString | TObject.

Definition type_of (v : value) : type :=
  match v with
  | VUndefined => TUndefined
  | VNull => TNull
  | VBool _ => TBoolean
  | VNum _ => TNumber
  | VStr _ => TString
  | VArray _ _ | VObject _ _ => TObject
  end.

Definition type_eqb (a b : type) : bool :=
  match a, b with
  | TUndefined, TUndefined | TNull, TNull | TBoolean, TBoolean
  | TNumber, TNumber | TString, TString | TObject, TObject => true
  | _, _ => false
  end.

(** The [typeof] operator. *)
Definition typeof (v : value) : string :=
  match v with
  | VUndefined => "undefined"
  | VNull | VArray _ _ | VObject _ _ => "object"
  | VBool _ => "boolean"
  | VNum _ => "number"
  | VStr _ => "string"
  end.

(** ToBoolean: what [if (v)], [!v] and [v && ...] test. *)
Definition to_boolean (v : value) : bool :=
  match v with
  | VUndefined | VNull => false
  | VBool b => b
  | VNum NaN => false
  | VNum (Int z) => negb (z =? 0)
  | VStr s => negb (String.eqb s "")
  | VArray _ _ | VObject _ _ => true
  end.

Definition number_to_string (n : number) : string :=
  match n with
  | NaN => "NaN"
  | Int z => pretty z
  end.

Fixpoint join (sep : string) (parts : list string) : string :=
  match parts with
  | [] => ""
  | [p] => p
  | p :: rest => p +:+ sep +:+ join sep rest
  end.

(** ToString.  An array prints as its elements joined by commas, a nullish
    element as the empty string; a plain object prints as
    ["[object Object]"]. *)
Fixpoint to_string (v : value) : string :=
  match v with
  | VUndefined => "undefined"
  | VNull => "null"
  | VBool b => if b then "true" else "false"
  | VNum n => number_to_string n
  | VStr s => s
  | VArray _ elems =>
      join "," (List.map (fun e => match e with
                                   | VUndefined | VNull => ""
                                   | _ => to_string e
                                   end) elems)
  | VObject _ _ => "[object Object]"
  end.

(** ToPrimitive: arrays and plain objects have no primitive [valueOf], so
    [toString] decides. *)
Definition to_primitive (v : value) : value :=
  match v with
  | VArray _ _ | VObject _ _ => VStr (to_string v)
  | _ => v
  end.

Definition is_ws (a : ascii) : bool :=
  let n := nat_of_ascii a in
  (Nat.eqb n 32 || ((9 <=? n)%nat && (n <=? 13)%nat))%bool.

Fixpoint ltrim (s : string) : string :=
  match s with
  | String a r => if is_ws a then ltrim r else s
  | EmptyString => s
  end.

Definition trim (s : string) : string :=
  String.rev (ltrim (String.rev (ltrim s))).

Definition digit_of (a : ascii) : option Z :=
  let n := Z.of_nat (nat_of_ascii a) in
  if (48 <=? n) && (n <=? 57) then Some (n - 48) else None.

Fixpoint digits_go (acc : Z) (s : string) : option Z :=
  match s with
  | EmptyString => Some acc
  | String a r =>
      match digit_of a with
      | Some d => digits_go (10 * acc + d) r
      | None => None
      end
  end.

Definition digits (s : string) : option Z :=
  match s with
  | EmptyString => None
  | _ => digits_go 0 s
  end.

(** StringToNumber on the integer fragment: surrounding white space is
    dropped, the empty string is 0, an optionally signed run of decimal
    digits is that integer, anything else is [NaN]. *)
Definition string_to_number (s : string) : number :=
  match trim s with
  | EmptyString => Int 0
  | String "+" r => match digits r with Some z => Int z | None => NaN end
  | String "-" r => match digits r with Some z => Int (- z) | None => NaN end
  | t => match digits t with Some z => Int z | None => NaN end
  end.

(** ToNumber. *)
Definition to_number (v : value) : number :=
  match to_primitive v with
  | VUndefined => NaN
  | VNull => Int 0
  | VBool b => Int (if b then 1 else 0)
  | VNum n => n
  | VStr s => string_to_number s
  | VArray _ _ | VObject _ _ => NaN
  end.

Definition number_eqb (a b : number) : bool :=
  match a, b with
  | Int x, Int y => x =? y
  | _, _ => false
  end.

(** [a === b] *)
Definition strict_eq (a b : value) : bool :=
  match a, b with
  | VUndefined, VUndefined | VNull, VNull => true
  | VBool x, VBool y => Bool.eqb x y
  | VNum x, VNum y => number_eqb x y
  | VStr x, VStr y => String.eqb x y
  | VArray l _, VArray l' _ | VArray l _, VObject l' _
  | VObject l _, VArray l' _ | VObject l _, VObject l' _ => Nat.eqb l l'
  | _, _ => false
  end.

Definition is_nullish (v : value) : bool :=
  match v with
  | VUndefined | VNull => true
  | _ => false
  end.

(** [a == b] (IsLooselyEqual): operands of one type compare strictly;
    [null] and [undefined] equal each other and nothing else; otherwise
    objects are first made primitive, and operands whose types still
    differ compare as numbers. *)
Definition loose_eq (a b : value) : bool :=
  if type_eqb (type_of a) (type_of b) then strict_eq a b
  else if is_nullish a then is_nullish b
  else if is_nullish b then false
  else
    let a' := to_primitive a in
    let b' := to_primitive b in
    if type_eqb (type_of a') (type_of b') then strict_eq a' b'
    else number_eqb (to_number a') (to_number b').

Definition hex_digit (n : nat) : string :=
  String (ascii_of_nat (if (n <? 10)%nat then 48 + n else 87 + n)%nat) "".

Definition json_escape (a : ascii) : string :=
  let n := nat_of_ascii a in
  if Nat.eqb n 34 then String "\" (String a "")
  else if Nat.eqb n 92 then "\\"
  else if Nat.eqb n 8 then "\b"
  else if Nat.eqb n 9 then "\t"
  else if Nat.eqb n 10 then "\n"
  else if Nat.eqb n 12 then "\f"
  else if Nat.eqb n 13 then "\r"
  else if (n <? 32)%nat
       then "\u00" +:+ hex_digit (n / 16) +:+ hex_digit (n mod 16)
  else String a "".

Fixpoint json_escape_all (s : string) : string :=
  match s with
  | EmptyString => ""
  | String a r => json_escape a +:+ json_escape_all r
  end.

Definition json_quote (s : string) : string :=
  String (ascii_of_nat 34) (json_escape_all s) +:+ String (ascii_of_nat 34) "".

(** The text [JSON.stringify] produces, [None] where it produces
    [undefined].  An undefined array element prints as [null], a property
    whose value is undefined is left out. *)
Fixpoint json_text (v : value) : option string :=
  match v with
  | VUndefined => None
  | VNull => Some "null"
  | VBool b => Some (if b then "true" else "false")
  | VNum NaN => Some "null"
  | VNum (Int z) => Some (pretty z)
  | VStr s => Some (json_quote s)
  | VArray _ elems =>
      Some ("[" +:+ join "," (List.map (fun e => match json_text e with
                                                 | Some t => t
                                                 | None => "null"
                                                 end) elems) +:+ "]")
  | VObject _ props =>
      Some ("{" +:+ join "," (List.flat_map
                                (fun p => match json_text (snd p) with
                                          | Some t => [json_quote (fst p) +:+ ":" +:+ t]
                                          | None => []
                                          end) props) +:+ "}")
  end.

(** [JSON.stringify(v)] *)
Definition JSON_stringify (v : value) : value :=
  match json_text v with
  | Some t => VStr t
  | None => VUndefined
  end.

(** The double nearest to the non-negative integer [a], ties to the even
    significand: integers below 2^53 are doubles; above, the 53 leading
    bits are kept and the rest is rounded. *)
Definition round_magnitude (a : Z) : Z :=
  if a <? 2 ^ 53 then a
  else
    let e := Z.log2 a - 52 in
    let q := a / 2 ^ e in
    let r := a mod 2 ^ e in
    let half := 2 ^ (e - 1) in
    let q' := if r <? half then q
              else if half <? r then q + 1
              else if Z.even q then q else q + 1 in
    q' * 2 ^ e.

(** [Math.abs(a - b) < delta], the operands converted with ToNumber; any
    [NaN] makes the comparison false.  The difference of two doubles is
    the double nearest to their exact difference. *)
Definition abs_diff_lt (a b delta : value) : bool :=
  match to_number a, to_number b, to_number delta with
  | Int x, Int y, Int d => round_magnitude (Z.abs (x - y)) <? d
  | _, _, _ => false
  end.

(** [v.key] for a value that is not nullish.  The engine reads only the
    keys [expected], [actual], [name] and [message], which no primitive
    wrapper and no array defines. *)
Definition get_prop (v : value) (key : string) : value :=
  match v with
  | VObject _ props =>
      match List.find (fun p => String.eqb (fst p) key) props with
      | Some p => snd p
      | None => VUndefined
      end
  | _ => VUndefined
  end.

(** *** The values on which this model is exact

    The definitions above follow ECMAScript on the values below; the
    theorems that depend on the conversions between numbers and strings
    or on [JSON.stringify] are stated for them.  Outside are: integers
    that are not safe integers (their text has an exponent from 1e21 on,
    and not every one is a double); strings that are numeric literals
    other than a short run of decimal digits (hexadecimal, fraction and
    exponent forms, [Infinity]) or that hold a character outside ASCII;
    and objects with a key that is an array index (such keys are
    enumerated first), with the same key twice, or with an own [toString],
    [valueOf], [toJSON] or [__proto__]. *)

Definition safe_integer (z : Z) : bool := Z.abs z <? 2 ^ 53.

Definition is_digit (a : ascii) : bool :=
  let n := nat_of_ascii a in ((48 <=? n) && (n <=? 57))%nat.

Fixpoint all_chars (f : ascii -> bool) (s : string) : bool :=
  match s with
  | EmptyString => true
  | String a r => f a && all_chars f r
  end.

(** One to fifteen decimal digits, with or without a sign. *)
Definition short_decimal (s : string) : bool :=
  let run (r : string) :=
    all_chars is_digit r && (1 <=? String.length r)%nat && (String.length r <=? 15)%nat in
  match s with
  | String a r =>
      if Ascii.eqb a "+" || Ascii.eqb a "-" then run r else run s
  | EmptyString => false
  end.

(** A string of ASCII characters that holds no digit and no letter [I]
    (it is no numeric literal), or that is, between white space, a short
    decimal. *)
Definition plain_string (s : string) : bool :=
  all_chars (fun a => (nat_of_ascii a <? 128)%nat) s
  && (all_chars (fun a => negb (is_digit a) && negb (Ascii.eqb a "I")) s
      || short_decimal (trim s)).

Definition plain_key (k : string) : bool :=
  all_chars (fun a => (nat_of_ascii a <? 128)%nat) k
  && negb (all_chars is_digit k)
  && negb (String.eqb k "toString") && negb (String.eqb k "valueOf")
  && negb (String.eqb k "toJSON") && negb (String.eqb k "__proto__").

Fixpoint distinct (ks : list string) : bool :=
  match ks with
  | [] => true
  | k :: rest => negb (existsb (String.eqb k) rest) && distinct rest
  end.

Fixpoint plain (v : value) : bool :=
  match v with
  | VUndefined | VNull | VBool _ | VNum NaN => true
  | VNum (Int z) => safe_integer z
  | VStr s => plain_string s
  | VArray _ elems => forallb plain elems
  | VObject _ props =>
      forallb (fun p => plain_key (fst p) && plain (snd p)) props
      && distinct (List.map fst props)
  end.

End JS.
Import JS.

(** ** The suite object of one unit test

    [const suite = { ccm, passed, failed, assertTrue, ... }] (lines
    185-267).  The record holds the data properties the engine reads and
    writes on it ([result], [message], [expected], [actual], [abort], all
    absent on the fresh object) and, in [custom], whatever else hooks and
    tests store on it.  The methods are the functions of [Module suite]. *)

Record Suite := mkSuite {
  result : value;
  message : value;
  expected : value;
  actual : value;
  abort : value;
  custom : gmap string value
}.

Definition new_suite : Suite :=
  mkSuite VUndefined VUndefined VUndefined VUndefined VUndefined ∅.

Definition set_result (v : value) (s : Suite) : Suite :=
  mkSuite v (message s) (expected s) (actual s) (abort s) (custom s).
Definition set_message (v : value) (s : Suite) : Suite :=
  mkSuite (result s) v (expected s) (actual s) (abort s) (custom s).
Definition set_expected (v : value) (s : Suite) : Suite :=
  mkSuite (result s) (message s) v (actual s) (abort s) (custom s).
Definition set_actual (v : value) (s : Suite) : Suite :=
  mkSuite (result s) (message s) (expected s) v (abort s) (custom s).
Definition set_abort (v : value) (s : Suite) : Suite :=
  mkSuite (result s) (message s) (expected s) (actual s) v (custom s).
Definition set_custom (c : gmap string value) (s : Suite) : Suite :=
  mkSuite (result s) (message s) (expected s) (actual s) (abort s) c.

(** The address given to the objects the engine itself allocates (the
    [{ expected, actual }] literals and the errors of the runtime).  None of
    them is ever compared with another object. *)
Definition engine_loc : loc := 0%nat.

(** The object literal [{ expected, actual }]. *)
Definition expected_actual (e a : value) : value :=
  VObject engine_loc [("expected", e); ("actual", a)].

(** [setResult(result, message)], lines 304-315. *)
Definition setResult (res : bool) (msg : value) (s : Suite) : Suite :=
  if to_boolean (abort s) then s
  else
    let s := set_result (VBool res) s in
    if res then s
    else
      let s := set_abort (VBool true) s in
      if negb (to_boolean msg) then s
      else if String.eqb (typeof msg) "string" then set_message msg s
      else set_actual (get_prop msg "actual")
             (set_expected (get_prop msg "expected") s).

Module suite.

(** [passed: () => setResult(true)] *)
Definition passed : Suite -> Suite := setResult true VUndefined.

(** [failed: (message) => { setResult(false, message); }] *)
Definition failed (message : value) : Suite -> Suite := setResult false message.

(** [assertTrue: (condition) => setResult(!!condition)] *)
Definition assertTrue (condition : value) : Suite -> Suite :=
  setResult (to_boolean condition) VUndefined.

(** [assertFalse: (condition) => setResult(!condition)] *)
Definition assertFalse (condition : value) : Suite -> Suite :=
  setResult (negb (to_boolean condition)) VUndefined.

(** [assertSame: (expected, actual) =>
      { setResult(expected == actual, { expected, actual }); }] *)
Definition assertSame (expected actual : value) : Suite -> Suite :=
  setResult (loose_eq expected actual) (expected_actual expected actual).

(** [assertEquals], lines 234-245. *)
Definition assertEquals (expected actual delta : value) : Suite -> Suite :=
  let expected :=
    if String.eqb (typeof expected) "object" then JSON_stringify expected
    else expected in
  let actual :=
    if String.eqb (typeof actual) "object" then JSON_stringify actual
    else actual in
  setResult
    (if to_boolean delta then abs_diff_lt expected actual delta
     else strict_eq expected actual)
    (expected_actual expected actual).

(** [assertNotSame: (expected, actual) => setResult(expected !== actual)] *)
Definition assertNotSame (expected actual : value) : Suite -> Suite :=
  setResult (negb (strict_eq expected actual)) VUndefined.

(** [assertNotEquals: (expected, actual) =>
      suite.assertNotSame(JSON.stringify(expected), JSON.stringify(actual))] *)
Definition assertNotEquals (expected actual : value) : Suite -> Suite :=
  assertNotSame (JSON_stringify expected) (JSON_stringify actual).

End suite.

(** One call of an assertion operation, as data; a missing argument is
    [VUndefined]. *)
Inductive call :=
| Passed
| Failed (message : value)
| AssertTrue (condition : value)
| AssertFalse (condition : value)
| AssertSame (expected actual : value)
| AssertEquals (expected actual delta : value)
| AssertNotSame (expected actual : value)
| AssertNotEquals (expected actual : value).

Definition invoke (c : call) : Suite -> Suite :=
  match c with
  | Passed => suite.passed
  | Failed m => suite.failed m
  | AssertTrue c => suite.assertTrue c
  | AssertFalse c => suite.assertFalse c
  | AssertSame e a => suite.assertSame e a
  | AssertEquals e a d => suite.assertEquals e a d
  | AssertNotSame e a => suite.assertNotSame e a
  | AssertNotEquals e a => suite.assertNotEquals e a
  end.

(** A sequence of calls, first to last. *)
Definition invoke_all (cs : list call) (s : Suite) : Suite :=
  fold_left (fun s c => invoke c s) cs s.

(** How a hook or a test ends: it returns (its promise resolves), or it
    throws (its promise rejects) with a value; either way it leaves the
    suite object as it last wrote it. *)
Inductive completion :=
| Normal (s : Suite)
| Throw (e : value) (s : Suite).

(** A hook or a test: a function of the suite object, known to the log by
    its [name] property. *)
Record Func := mkFunc {
  name : string;
  body : Suite -> completion
}.

(** A function that does [f] to the suite and returns. *)
Definition does (n : string) (f : Suite -> Suite) : Func :=
  mkFunc n (fun s => Normal (f s)).

(** ** Test packages

    A package object: the optional [setup] and [finally] functions, the
    optional [tests] collection (an array, or an object whose values
    [Object.keys] lists in order) and, under every other key, a subpackage,
    in the order [for ... in] enumerates the keys.  The tree shares no
    node, so the [delete]s of [processPackage] on visited nodes are not
    observable and are not modelled. *)

Inductive Package := mkPackage {
  setup : option Func;
  tests : option (list Func);
  finally : option Func;
  packages : list (string * Package)
}.

(** [results], lines 80-85. *)
Record Results := mkResults {
  executed : nat;
  passed : nat;
  failed : nat;
  details : gmap string value
}.

Definition initial_results : Results := mkResults 0 0 0 ∅.

(** What the log records: a call of a setup function, of a test or of a
    finalize function, with the number of the suite object it received
    (suite objects are numbered in the order they are created). *)
Inductive event :=
| EvSetup (hook : string) (suite_id : nat)
| EvTest (test : string) (suite_id : nat)
| EvFinally (hook : string) (suite_id : nat).

(** The state of a run: the [results] of the instance, the suite object of
    the unit test being run, and two ghost fields that the source does not
    have: how many suite objects were created, and the log of calls. *)
Record State := mkState {
  results : Results;
  current : Suite;
  created : nat;
  trace : list event
}.

Definition initial_state : State := mkState initial_results new_suite 0 [].

(** How an [async] function ends: its promise resolves with a value or
    rejects with a thrown value. *)
Inductive outcome (A : Type) :=
| Ok (a : A)
| Err (e : value).
Arguments Ok {A} a.
Arguments Err {A} e.

(** Asynchronous code of the instance: every [await] is waited for before
    the next statement, so a computation is a function of the state that
    resolves or rejects and leaves a state behind. *)
Definition M (A : Type) : Type := State -> outcome A * State.

#[global] Instance M_ret : MRet M := fun A a st => (Ok a, st).
#[global] Instance M_bind : MBind M := fun A B k m st =>
  match m st with
  | (Ok a, st') => k a st'
  | (Err e, st') => (Err e, st')
  end.

Definition modify (f : State -> State) : M unit := fun st => (Ok (), f st).

Definition set_results (r : Results) (st : State) : State :=
  mkState r (current st) (created st) (trace st).
Definition set_current (s : Suite) (st : State) : State :=
  mkState (results st) s (created st) (trace st).
Definition log (ev : event) (st : State) : State :=
  mkState (results st) (current st) (created st) (trace st ++ [ev]).

(** [const suite = { ... }]: a new object, with the next number. *)
Definition create_suite (st : State) : State :=
  mkState (results st) new_suite (S (created st)) (trace st).

(** The number of the suite object of the running unit test. *)
Definition suite_id (st : State) : nat := pred (created st).

(** Modelled from the spec: [$.asyncForEach] of the ccm helper library,
    which is not part of the sources; it calls the callback on each element
    in order and awaits each call before the next ("sequentially, awaiting
    completion before starting the next"), so a rejection ends the loop. *)
Fixpoint asyncForEach {A : Type} (array : list A) (callback : A -> M unit) : M unit :=
  match array with
  | [] => mret ()
  | x :: rest => callback x ;; asyncForEach rest callback
  end.

(** A call [f(suite)] that is awaited. *)
Definition call_func (ev : string -> nat -> event) (f : Func) : M unit :=
  fun st =>
    let st := log (ev (name f) (suite_id st)) st in
    match body f (current st) with
    | Normal s => (Ok (), set_current s st)
    | Throw e s => (Err e, set_current s st)
    end.

(** [try { body } catch (e) { handler }] *)
Definition try_catch (m : M unit) (handler : value -> M unit) : M unit :=
  fun st =>
    match m st with
    | (Ok a, st') => (Ok a, st')
    | (Err e, st') => handler e st'
    end.

(** An error object, with the [name] it inherits and its [message]. *)
Definition Error (l : loc) (name message : string) : value :=
  VObject l [("name", VStr name); ("message", VStr message)].
Arguments Error l%_nat_scope name message.

(** The error of reading a property of [undefined] or [null]. *)
Definition TypeError (msg : string) : value := Error engine_loc "TypeError" msg.

(** [e.name + (e.message ? ": " + e.message : "")] for [e] not nullish. *)
Definition error_text (e : value) : string :=
  to_string (get_prop e "name")
  +:+ (if to_boolean (get_prop e "message")
       then ": " +:+ to_string (get_prop e "message")
       else "").

(** The [catch] clause, lines 275-281:
    [!suite.abort && setResult(false, e.name + ...)]. *)
Definition on_error (e : value) : M unit :=
  fun st =>
    if to_boolean (abort (current st)) then (Ok (), st)
    else if is_nullish e
    then (Err (TypeError ("Cannot read properties of " +:+ to_string e
                          +:+ " (reading 'name')")), st)
    else (Ok (), set_current (setResult false (VStr (error_text e)) (current st)) st).

(** [showResult()], lines 318-366. *)
Definition showResult (package_path : string) (test : Func) : M unit :=
  modify (fun st =>
    let s := current st in
    let key := package_path +:+ "." +:+ name test in
    let r := results st in
    let r := if to_boolean (result s)
             then mkResults (executed r) (S (passed r)) (failed r) (details r)
             else mkResults (executed r) (passed r) (S (failed r)) (details r) in
    let d := <[key := result s]> (details r) in
    let d := if to_boolean (message s) then <[key := message s]> d else d in
    let d := if negb (to_boolean (result s))
                && negb (strict_eq (expected s) VUndefined)
                && negb (strict_eq (actual s) VUndefined)
             then <[key := expected_actual (expected s) (actual s)]> d
             else d in
    set_results (mkResults (executed r) (passed r) (failed r) d) st).

(** [results.executed++] *)
Definition count_executed : M unit :=
  modify (fun st =>
    let r := results st in
    set_results (mkResults (S (executed r)) (passed r) (failed r) (details r)) st).

(** The callback of [runPackageTests] that runs one unit test, lines
    164-367 (the specification calls it [runOneTest]). *)
Definition runOneTest (package_path : string) (setups finallies : list Func)
    (test : Func) : M unit :=
  modify create_suite ;;
  asyncForEach setups (call_func EvSetup) ;;
  count_executed ;;
  try_catch (call_func EvTest test) on_error ;;
  showResult package_path test ;;
  asyncForEach finallies (call_func EvFinally).

(** [runPackageTests(tests)], lines 153-369. *)
Definition runPackageTests (package_path : string) (setups finallies : list Func)
    (tests : list Func) : M unit :=
  asyncForEach tests (runOneTest package_path setups finallies).

(** [processPackage(package_path, package_obj, setups, finallies)], lines
    110-146. *)
Fixpoint processPackage (package_path : string) (package_obj : Package)
    (setups finallies : list Func) : M unit :=
  let setups :=
    match setup package_obj with
    | Some f => setups ++ [f]
    | None => setups
    end in
  let finallies :=
    match finally package_obj with
    | Some f => f :: finallies
    | None => finallies
    end in
  match tests package_obj with
  | Some ts => runPackageTests package_path setups finallies ts
  | None => mret ()
  end ;;
  (fix each (subs : list (string * Package)) : M unit :=
     match subs with
     | [] => mret ()
     | (key, subpackage) :: rest =>
         processPackage
           ((if to_boolean (VStr package_path) then package_path +:+ "." else "") +:+ key)
           subpackage setups finallies ;;
         each rest
     end) (packages package_obj).

(** ** The instance: [ready] and [start] *)

(** The properties of the instance the engine uses: the configured
    [package] path ([None] when the configuration has none), [this.tests]
    ([None] once navigation has left the tree), and the two arrays
    [setups] and [finallies] of lines 41 and 47. *)
Record Instance := mkInstance {
  package : option string;
  this_tests : option Package;
  this_setups : list Func;
  this_finallies : list Func
}.

(** [s.split(".")] *)
Fixpoint split_dots (s : string) : list string :=
  match s with
  | EmptyString => [""]
  | String a r =>
      if Ascii.eqb a "." then "" :: split_dots r
      else match split_dots r with
           | h :: t => String a h :: t
           | [] => [String a ""]
           end
  end.

Definition option_list {A : Type} (o : option A) : list A :=
  match o with
  | Some a => [a]
  | None => []
  end.

Definition find_package (key : string) (p : Package) : option Package :=
  snd <$> List.find (fun kp => String.eqb (fst kp) key) (packages p).

(** The [while] loop of [ready], lines 65-69, for paths whose components
    name subpackages or nothing at all: a component that names nothing
    leaves [this.tests] undefined, and reading [.setup] of it throws.  A
    component that names another property of the package object
    ([other_property]) leads to a value that is no package; such paths are
    outside this function, and the theorems that follow a missing
    component into the next one exclude them. *)
Fixpoint navigate (array : list string) (i : Instance) : outcome Instance :=
  match array with
  | [] => Ok i
  | key :: rest =>
      match this_tests i with
      | None => Err (TypeError "Cannot read properties of undefined (reading 'setup')")
      | Some p =>
          navigate rest
            (mkInstance (package i) (find_package key p)
               (this_setups i ++ option_list (setup p))
               (option_list (finally p) ++ this_finallies i))
      end
  end.

(** [ready], lines 55-70 (the helper shortcut [$] apart). *)
Definition ready (i : Instance) : outcome Instance :=
  match package i with
  | None => Ok i
  | Some path =>
      if negb (to_boolean (VStr path)) then Ok i
      else navigate (split_dots path) i
  end.

Definition empty_package : Package := mkPackage None None None [].

(** [start], lines 72-100: fresh [results], then [processPackage] with the
    default parameters [package_path = ""] and [package_obj = {}] standing
    in for an undefined argument.  The finish actions [$.onFinish(self)]
    belong to the helper library and do not touch [results]. *)
Definition start (i : Instance) : M unit :=
  modify (set_results initial_results) ;;
  processPackage (default "" (package i)) (default empty_package (this_tests i))
    (this_setups i) (this_finallies i).

(** [getValue]: a copy of [results]. *)
Definition getValue (st : State) : Results := results st.

(** An instance as the framework creates it from a configuration. *)
Definition instance (path : option string) (root : Package) : Instance :=
  mkInstance path (Some root) [] [].

(** One run: the framework awaits [ready], then [start]; when [ready]
    rejects, [start] is not called and [results] is never assigned: the
    state paired with the error is then no report. *)
Definition run (path : option string) (root : Package) : outcome unit * State :=
  match ready (instance path root) with
  | Ok i => start i initial_state
  | Err e => (Err e, initial_state)
  end.

(** ** The default test package, [resources/tests.js] *)

Module DefaultTests.

Definition num (z : Z) : value := VNum (Int z).

(** An array literal [[1, 2, 3]], allocated at [l]. *)
Definition one_two_three (l : loc) : value := VArray l [num 1; num 2; num 3].
Arguments one_two_three l%_nat_scope.

Definition numbers (s : Suite) : value := default VUndefined (custom s !! "numbers").

(** [setup: (suite) => (suite.numbers = [1, 2, 3])] *)
Definition setup_numbers : Func :=
  does "setup" (fun s => set_custom (<["numbers" := one_two_three 1]> (custom s)) s).

(** [finally: (suite) => delete suite.numbers] *)
Definition delete_numbers : Func :=
  does "finally" (fun s => set_custom (delete "numbers" (custom s)) s).

(** [function catchError() { throw new Error(); }] *)
Definition catchError : Func :=
  mkFunc "catchError"
    (fun s => Throw (Error 3 "Error" "") s).

(** [function eachNumber(suite)]: three [assertEquals] calls on the
    elements of [suite.numbers], which is the array the setup function
    stored, or absent. *)
Definition eachNumber : Func :=
  mkFunc "eachNumber" (fun s =>
    match numbers s with
    | VArray _ elems =>
        Normal (invoke_all
                  [AssertEquals (nth 0 elems VUndefined) (num 1) VUndefined;
                   AssertEquals (nth 1 elems VUndefined) (num 2) VUndefined;
                   AssertEquals (nth 2 elems VUndefined) (num 3) VUndefined] s)
    | _ => Throw (TypeError "Cannot read properties of undefined (reading '0')") s
    end).

Definition tests_js : Package :=
  mkPackage
    (Some setup_numbers)
    (Some [does "passed" suite.passed;
           does "failed" (suite.failed VUndefined);
           does "assertTrue" (suite.assertTrue (VBool true));
           does "assertFalse" (suite.assertFalse (VBool false));
           does "assertSame" (fun s => suite.assertSame (numbers s) (one_two_three 2) s);
           does "assertEquals"
             (fun s => suite.assertEquals (numbers s) (one_two_three 2) VUndefined s);
           does "assertNotSame" (fun s => suite.assertNotSame (numbers s) (one_two_three 2) s);
           does "assertNotEquals"
             (fun s => suite.assertNotEquals (numbers s) (one_two_three 2) s)])
    (Some delete_numbers)
    [("subpackage",
      mkPackage None
        (Some [catchError;
               does "hasNumbers" (fun s => suite.assertTrue (numbers s) s);
               eachNumber])
        None [])].

End DefaultTests.

(** ** The traversal as a list of jobs

    The unit tests of a package tree in the order [processPackage] reaches
    them, each with the path and the two function lists it is run with. *)

Record Job := mkJob {
  job_path : string;
  job_setups : list Func;
  job_finallies : list Func;
  job_test : Func
}.

Definition run_job (j : Job) : M unit :=
  runOneTest (job_path j) (job_setups j) (job_finallies j) (job_test j).

Fixpoint plan (package_path : string) (package_obj : Package)
    (setups finallies : list Func) : list Job :=
  let setups :=
    match setup package_obj with
    | Some f => setups ++ [f]
    | None => setups
    end in
  let finallies :=
    match finally package_obj with
    | Some f => f :: finallies
    | None => finallies
    end in
  List.map (mkJob package_path setups finallies) (default [] (tests package_obj))
  ++ (fix each (subs : list (string * Package)) : list Job :=
        match subs with
        | [] => []
        | (key, subpackage) :: rest =>
            plan
              ((if to_boolean (VStr package_path) then package_path +:+ "." else "") +:+ key)
              subpackage setups finallies
            ++ each rest
        end) (packages package_obj).

(** The number of unit tests of a package tree. *)
Fixpoint count_tests (p : Package) : nat :=
  (List.length (default [] (tests p))
   + (fix each (subs : list (string * Package)) : nat :=
        match subs with
        | [] => 0
        | (_, subpackage) :: rest => count_tests subpackage + each rest
        end) (packages p))%nat.

(** The steps of [runOneTest] up to and including [showResult]. *)
Definition until_result (package_path : string) (setups : list Func) (test : Func) : M unit :=
  modify create_suite ;;
  asyncForEach setups (call_func EvSetup) ;;
  count_executed ;;
  try_catch (call_func EvTest test) on_error ;;
  showResult package_path test.

(** A job ends in a hook fault: a setup function rejects, or, the result
    of the test shown, a finalize function rejects. *)
Definition hook_fault (j : Job) (st : State) (e : value) (st' : State) : Prop :=
  asyncForEach (job_setups j) (call_func EvSetup) (create_suite st) = (Err e, st')
  \/ exists st1,
       until_result (job_path j) (job_setups j) (job_test j) st = (Ok (), st1)
       /\ asyncForEach (job_finallies j) (call_func EvFinally) st1 = (Err e, st').

(** ** The entry of [details], as the specification words it

    "a plain boolean if there's no message/expected-actual, the message
    string if present, or {expected, actual} if both are present": the
    result first, the message over it, the pair over both for a failed
    test with both values set. *)
Definition detail_entry (s : Suite) : value :=
  if negb (to_boolean (result s))
     && negb (strict_eq (expected s) VUndefined)
     && negb (strict_eq (actual s) VUndefined)
  then expected_actual (expected s) (actual s)
  else if to_boolean (message s) then message s
  else result s.

(** The detail key of a test: [package_path + "." + test.name]. *)
Definition detail_key (package_path : string) (test : Func) : string :=
  package_path +:+ "." +:+ name test.

(** A function that returns (resolves) whatever suite it is given. *)
Definition returns (f : Func) : Prop :=
  forall s, exists s', body f s = Normal s'.




(** A package of one unit test, with a setup and a finalize function that
    leave the suite as it is. *)
Definition small_package (test : Func) : Package :=
  mkPackage (Some (does "before" id)) (Some [test]) (Some (does "after" id)) [].

(** A package of one unit test and no hook. *)
Definition lone (test : Func) : Package := mkPackage None (Some [test]) None [].

(** A test that reports a failure with a message and then throws an
    error: [(suite) => { suite.failed(message); throw e; }]. *)
Definition fails_then_throws (n : string) (message : string) (e : value) : Func :=
  mkFunc n (fun s => Throw e (suite.failed (VStr message) s)).

(** A hook that throws an error. *)
Definition broken_hook (n : string) : Func :=
  mkFunc n (fun s => Throw (Error 7 "Error" "broken") s).

(** Induction on package trees, the subpackages of a node included. *)
Section PackageInduction.

Variable P : Package -> Prop.
Hypothesis step :
  forall s t f subs, Forall (fun kp => P (snd kp)) subs -> P (mkPackage s t f subs).

Fixpoint Package_tree_ind (p : Package) : P p :=
  match p with
  | mkPackage s t f subs =>
      step s t f subs
        ((fix go (l : list (string * Package)) : Forall (fun kp => P (snd kp)) l :=
            match l with
            | [] => List.Forall_nil _
            | kp :: r => List.Forall_cons _ kp r (Package_tree_ind (snd kp)) (go r)
            end) subs)
  end.

End PackageInduction.

(** What a call records as the result on a suite that is still open: the
    boolean it hands to [setResult]. *)
Definition verdict (c : call) : bool := to_boolean (result (invoke c new_suite)).

(** The detail key of a job. *)
Definition job_key (j : Job) : string := detail_key (job_path j) (job_test j).




(** The path [processPackage] gives the subpackage [key] of the package at
    [package_path]. *)
Definition subpath (package_path key : string) : string :=
  (if to_boolean (VStr package_path) then package_path +:+ "." else "") +:+ key.

(** The number of tests counted as passed or failed. *)
Definition settled (st : State) : nat :=
  (passed (results st) + failed (results st))%nat.

(** The path [processPackage] reaches from [package_path] through the
    subpackages named by [keys]. *)
Fixpoint path_of (package_path : string) (keys : list string) : string :=
  match keys with
  | [] => package_path
  | key :: rest => path_of (subpath package_path key) rest
  end.

(** The packages [navigate] passes through from [p] along [keys], the
    outermost first; the package the last key leads to is not among
    them. *)
Fixpoint ancestors (keys : list string) (p : Package) : list Package :=
  match keys with
  | [] => []
  | key :: rest =>
      p :: match find_package key p with
           | Some q => ancestors rest q
           | None => []
           end
  end.

(** The names a package object answers to besides its subpackages: the
    three reserved keys, and the properties a plain object inherits from
    [Object.prototype].  [this.tests[key]] is [undefined] for a key that is
    neither one of these nor the key of a subpackage. *)
Definition other_property (key : string) : bool :=
  existsb (String.eqb key)
    ["setup"; "tests"; "finally"; "constructor"; "hasOwnProperty"; "isPrototypeOf";
     "propertyIsEnumerable"; "toLocaleString"; "toString"; "valueOf"; "__proto__";
     "__defineGetter__"; "__defineSetter__"; "__lookupGetter__"; "__lookupSetter__"].


(** The suite a list of hooks leaves, each hook called on the suite the
    one before it left; [None] when one of them throws. *)
Fixpoint thread (hooks : list Func) (s : Suite) : option Suite :=
  match hooks with
  | [] => Some s
  | h :: rest =>
      match body h s with
      | Normal s' => thread rest s'
      | Throw _ _ => None
      end
  end.

(** The operand [assertEquals] compares and records: the JSON text of an
    argument whose [typeof] is ["object"], the argument itself
    otherwise. *)
Definition serialized (v : value) : value :=
  if String.eqb (typeof v) "object" then JSON_stringify v else v.

(** * Properties *)

(** ** The abort latch of [setResult] *)

Section Latch.

Implicit Types (s : Suite) (c : call) (cs : list call).

Lemma setResult_aborted res msg s :
  to_boolean (abort s) = true -> setResult res msg s = s.
Proof. intros H. unfold setResult. now rewrite H. Qed.

Lemma setResult_passes msg s :
  to_boolean (abort s) = false -> setResult true msg s = set_result (VBool true) s.
Proof. intros H. unfold setResult. now rewrite H. Qed.

Lemma setResult_false_aborts msg s :
  to_boolean (abort (setResult false msg s)) = true.
Proof.
  unfold setResult.
  destruct (to_boolean (abort s)) eqn:Habort; [exact Habort|].
  destruct (negb (to_boolean msg)); [reflexivity|].
  destruct (String.eqb (typeof msg) "string"); reflexivity.
Qed.

Lemma setResult_false_result msg s :
  to_boolean (abort s) = false -> result (setResult false msg s) = VBool false.
Proof.
  intros H. unfold setResult. rewrite H.
  destruct (negb (to_boolean msg)); [reflexivity|].
  destruct (String.eqb (typeof msg) "string"); reflexivity.
Qed.

(** Every assertion operation is one call of [setResult]. *)
Lemma invoke_setResult c s : exists res msg, invoke c s = setResult res msg s.
Proof. destruct c; simpl; eexists _, _; reflexivity. Qed.

Lemma invoke_aborted c s : to_boolean (abort s) = true -> invoke c s = s.
Proof.
  intros H. destruct (invoke_setResult c s) as (res & msg & ->).
  now apply setResult_aborted.
Qed.

Lemma invoke_all_aborted cs s :
  to_boolean (abort s) = true -> invoke_all cs s = s.
Proof.
  intros H. induction cs as [|c cs IH]; [reflexivity|].
  unfold invoke_all in *. simpl. now rewrite invoke_aborted.
Qed.

(** A call that leaves the result [false] leaves the latch set. *)
Lemma invoke_false_aborts c s :
  result (invoke c s) = VBool false -> to_boolean (abort (invoke c s)) = true.
Proof.
  destruct (invoke_setResult c s) as (res & msg & ->).
  destruct (to_boolean (abort s)) eqn:Habort.
  - now rewrite setResult_aborted.
  - destruct res.
    + rewrite setResult_passes by assumption. discriminate.
    + intros _. apply setResult_false_aborts.
Qed.

End Latch.

(** C2, as amended.  The first call that records a failure is terminal:
    whatever calls follow it on the same suite leave the suite, and so its
    result, message, expected and actual values, as that call left them.
    (A call that records success does not close the suite.) *)
Theorem first_failure_is_final (s : Suite) (c : call) (cs : list call) :
  result (invoke c s) = VBool false ->
  invoke_all cs (invoke c s) = invoke c s.
Proof.
  intros Hfailed. apply invoke_all_aborted. now apply invoke_false_aborts.
Qed.

Lemma first_failure_is_final_witness :
  result (invoke (Failed (VStr "no")) new_suite) = VBool false
  /\ invoke_all [Passed; AssertTrue (VBool true)] (invoke (Failed (VStr "no")) new_suite)
     = invoke (Failed (VStr "no")) new_suite.
Proof.
  split; [reflexivity|].
  apply (first_failure_is_final new_suite (Failed (VStr "no"))). reflexivity.
Defined.

(** C2, as stated, fails: after a first call [passed()], a second call
    [failed("late")] on the same suite changes its result and its
    message. *)
Lemma first_call_is_not_terminal :
  result (invoke Passed new_suite) = VBool true
  /\ message (invoke Passed new_suite) = VUndefined
  /\ result (invoke (Failed (VStr "late")) (invoke Passed new_suite)) = VBool false
  /\ message (invoke (Failed (VStr "late")) (invoke Passed new_suite)) = VStr "late"
  /\ invoke_all [Failed (VStr "late")] (invoke Passed new_suite) <> invoke Passed new_suite.
Proof. repeat split; try reflexivity. intros H. discriminate H. Qed.

(** ** Sequencing *)

Section Sequencing.

Context {A B : Type}.
Implicit Types (m : M A) (k : A -> M B) (st : State).

Lemma bind_ok m k st a st' :
  m st = (Ok a, st') -> (m ≫= k) st = k a st'.
Proof. intros H. unfold mbind, M_bind. now rewrite H. Qed.

Lemma bind_err m k st e st' :
  m st = (Err e, st') -> (m ≫= k) st = (Err e, st').
Proof. intros H. unfold mbind, M_bind. now rewrite H. Qed.

Lemma bind_ok_inv m k st b st2 :
  (m ≫= k) st = (Ok b, st2) ->
  exists a st1, m st = (Ok a, st1) /\ k a st1 = (Ok b, st2).
Proof.
  unfold mbind, M_bind. destruct (m st) as [[a|e] st1]; [|discriminate].
  intros H. now exists a, st1.
Qed.

End Sequencing.

Section AsyncForEach.

Context {A : Type}.
Implicit Types (f : A -> M unit) (l : list A) (st : State).

Lemma asyncForEach_app l1 l2 f st :
  asyncForEach (l1 ++ l2) f st = (asyncForEach l1 f ;; asyncForEach l2 f) st.
Proof.
  revert st. induction l1 as [|x l1 IH]; intros st; [reflexivity|].
  simpl. unfold mbind, M_bind in *.
  destruct (f x st) as [[[]|e] st1]; [apply IH|reflexivity].
Qed.

Lemma asyncForEach_map {C : Type} (g : C -> A) (l : list C) f st :
  asyncForEach (List.map g l) f st = asyncForEach l (fun c => f (g c)) st.
Proof.
  revert st. induction l as [|x l IH]; intros st; [reflexivity|].
  simpl. unfold mbind, M_bind.
  destruct (f (g x) st) as [[[]|e] st1]; [apply IH|reflexivity].
Qed.

(** A rejection ends the loop: the elements after the rejecting one are
    not visited, and the state is the one the rejecting call left. *)
Lemma asyncForEach_rejects l1 x l2 f st st1 e st2 :
  asyncForEach l1 f st = (Ok (), st1) ->
  f x st1 = (Err e, st2) ->
  asyncForEach (l1 ++ x :: l2) f st = (Err e, st2).
Proof.
  intros H1 Hx. rewrite asyncForEach_app. rewrite (bind_ok _ _ _ _ _ H1).
  simpl. now apply bind_err.
Qed.

(** What every call preserves when it resolves, the loop preserves when it
    resolves. *)
Lemma asyncForEach_invariant (I : State -> Prop) l f :
  (forall x st st', f x st = (Ok (), st') -> I st -> I st') ->
  forall st st', asyncForEach l f st = (Ok (), st') -> I st -> I st'.
Proof.
  intros Hf. induction l as [|x l IH]; intros st st' H HI.
  - now inversion H; subst.
  - simpl in H. apply bind_ok_inv in H as ([] & st1 & Hx & Hrest). eauto.
Qed.

End AsyncForEach.

(** ** Calls of hooks and tests *)

Section Calls.

Implicit Types (f test : Func) (hooks : list Func) (st : State).

Lemma call_func_frame ev f st o st' :
  call_func ev f st = (o, st') ->
  results st' = results st /\ created st' = created st
  /\ trace st' = trace st ++ [ev (name f) (suite_id st)].
Proof.
  unfold call_func. destruct (body f _); intros [= <- <-]; now simpl.
Qed.

Lemma hooks_frame ev hooks st o st' :
  asyncForEach hooks (call_func ev) st = (o, st') ->
  results st' = results st /\ created st' = created st.
Proof.
  revert st. induction hooks as [|h hooks IH]; intros st.
  - now intros [= <- <-].
  - simpl. unfold mbind, M_bind.
    destruct (call_func ev h st) as [[[]|e] st1] eqn:Hh;
      apply call_func_frame in Hh as (Hr & Hc & _).
    + intros H. apply IH in H as [-> ->]. now split.
    + now intros [= <- <-].
Qed.


Lemma call_func_throws ev f st e s' :
  body f (current st) = Throw e s' ->
  call_func ev f st = (Err e, set_current s' (log (ev (name f) (suite_id st)) st)).
Proof. intros H. unfold call_func. simpl. now rewrite H. Qed.


(** The [try] statement around the test, case by case. *)
Lemma try_test_returns test st s' :
  body test (current st) = Normal s' ->
  try_catch (call_func EvTest test) on_error st
  = (Ok (), set_current s' (log (EvTest (name test) (suite_id st)) st)).
Proof. intros H. unfold try_catch, call_func. simpl. now rewrite H. Qed.

Lemma try_test_throws_aborted test st e s' :
  body test (current st) = Throw e s' ->
  to_boolean (abort s') = true ->
  try_catch (call_func EvTest test) on_error st
  = (Ok (), set_current s' (log (EvTest (name test) (suite_id st)) st)).
Proof.
  intros H Habort. unfold try_catch, call_func, on_error. simpl.
  rewrite H. simpl. now rewrite Habort.
Qed.

Lemma try_test_throws test st e s' :
  body test (current st) = Throw e s' ->
  to_boolean (abort s') = false ->
  is_nullish e = false ->
  try_catch (call_func EvTest test) on_error st
  = (Ok (), set_current (setResult false (VStr (error_text e)) s')
              (log (EvTest (name test) (suite_id st)) st)).
Proof.
  intros H Habort He. unfold try_catch, call_func, on_error. simpl.
  rewrite H. simpl. now rewrite Habort, He.
Qed.

Lemma try_test_frame test st o st' :
  try_catch (call_func EvTest test) on_error st = (o, st') ->
  results st' = results st /\ created st' = created st
  /\ trace st' = trace st ++ [EvTest (name test) (suite_id st)].
Proof.
  unfold try_catch.
  destruct (call_func EvTest test st) as [[[]|e] st1] eqn:Hcall;
    apply call_func_frame in Hcall as (Hr & Hc & Ht).
  - now intros [= <- <-].
  - unfold on_error. destruct (to_boolean (abort (current st1))).
    + now intros [= <- <-].
    + destruct (is_nullish e); now intros [= <- <-].
Qed.

(** [showResult] counts the test once, as passed or as failed, and writes
    one entry. *)
Lemma showResult_spec package_path test st :
  exists st',
    showResult package_path test st = (Ok (), st')
    /\ current st' = current st /\ created st' = created st /\ trace st' = trace st
    /\ executed (results st') = executed (results st)
    /\ (passed (results st') + failed (results st')
        = S (passed (results st) + failed (results st)))%nat
    /\ passed (results st')
       = (if to_boolean (result (current st)) then S (passed (results st))
          else passed (results st))
    /\ details (results st')
       = <[detail_key package_path test := detail_entry (current st)]>
           (details (results st)).
Proof.
  unfold showResult, modify, detail_entry, detail_key. cbv beta zeta.
  destruct (to_boolean (result (current st)));
    destruct (to_boolean (message (current st)));
    destruct (negb (strict_eq (expected (current st)) VUndefined));
    destruct (negb (strict_eq (actual (current st)) VUndefined));
    (eexists; split; [reflexivity|]); simpl;
    rewrite ?insert_insert_eq; repeat split; lia.
Qed.

End Calls.

(** ** One unit test *)

Section OneTest.

Implicit Types (test : Func) (setups finallies : list Func) (st : State).

Lemma runOneTest_until package_path setups finallies test st :
  runOneTest package_path setups finallies test st
  = (until_result package_path setups test ;;
     asyncForEach finallies (call_func EvFinally)) st.
Proof.
  unfold runOneTest, until_result, mbind, M_bind.
  destruct (modify create_suite st) as [[[]|?] st0]; [|reflexivity].
  destruct (asyncForEach setups _ st0) as [[[]|?] st1]; [|reflexivity].
  destruct (count_executed st1) as [[[]|?] st2]; [|reflexivity].
  destruct (try_catch _ _ st2) as [[[]|?] st3]; [|reflexivity].
  reflexivity.
Qed.

(** A setup function that rejects ends the unit test before it is counted
    or called. *)
Lemma runOneTest_setup_fault package_path setups finallies test st e st' :
  asyncForEach setups (call_func EvSetup) (create_suite st) = (Err e, st') ->
  runOneTest package_path setups finallies test st = (Err e, st')
  /\ results st' = results st.
Proof.
  intros H. split.
  - unfold runOneTest. rewrite (bind_ok _ _ st () (create_suite st)) by reflexivity.
    now apply bind_err.
  - now apply hooks_frame in H as [-> _].
Qed.

(** What the steps up to [showResult] do to the state when they resolve. *)
Lemma until_result_spec package_path setups test st st1 :
  until_result package_path setups test st = (Ok (), st1) ->
  created st1 = S (created st)
  /\ executed (results st1) = S (executed (results st))
  /\ (passed (results st1) + failed (results st1)
      = S (passed (results st) + failed (results st)))%nat
  /\ passed (results st1)
     = (if to_boolean (result (current st1)) then S (passed (results st))
        else passed (results st))
  /\ details (results st1)
     = <[detail_key package_path test := detail_entry (current st1)]>
         (details (results st)).
Proof.
  unfold until_result. intros H.
  apply bind_ok_inv in H as ([] & st0 & [= <-] & H).
  apply bind_ok_inv in H as ([] & st2 & Hsetups & H).
  apply bind_ok_inv in H as ([] & st3 & [= <-] & H).
  apply bind_ok_inv in H as ([] & st4 & Htry & H).
  apply hooks_frame in Hsetups as [Hr2 Hc2].
  apply try_test_frame in Htry as (Hr4 & Hc4 & _).
  destruct (showResult_spec package_path test st4)
    as (st' & Hshow & Hcur & Hc & _ & He & Hpf & Hp & Hd).
  rewrite Hshow in H. injection H as <-.
  rewrite Hcur, Hc, He, Hpf, Hp, Hd, Hr4, Hc4. simpl. rewrite Hr2, Hc2. simpl.
  repeat split.
Qed.

Lemma runOneTest_counts package_path setups finallies test st st' :
  runOneTest package_path setups finallies test st = (Ok (), st') ->
  executed (results st') = S (executed (results st))
  /\ (passed (results st') + failed (results st')
      = S (passed (results st) + failed (results st)))%nat.
Proof.
  rewrite runOneTest_until. intros H.
  apply bind_ok_inv in H as ([] & st1 & Huntil & Hfinal).
  apply until_result_spec in Huntil as (_ & He & Hpf & _).
  apply hooks_frame in Hfinal as [-> _]. now split.
Qed.

End OneTest.

(** ** The traversal *)

(** [processPackage] runs the jobs of [plan], one after the other. *)
Lemma processPackage_plan (p : Package) :
  forall package_path setups finallies st,
    processPackage package_path p setups finallies st
    = asyncForEach (plan package_path p setups finallies) run_job st.
Proof.
  induction p as [s t f subs IH] using Package_tree_ind.
  intros package_path setups finallies st.
  cbn [processPackage plan setup tests finally packages].
  set (setups' := match s with Some h => setups ++ [h] | None => setups end).
  set (finallies' := match f with Some h => h :: finallies | None => finallies end).
  rewrite asyncForEach_app. unfold mbind at 1 3, M_bind.
  assert (Htests :
    match t with
    | Some ts => runPackageTests package_path setups' finallies' ts
    | None => mret ()
    end st
    = asyncForEach (List.map (mkJob package_path setups' finallies') (default [] t))
        run_job st).
  { destruct t as [ts|]; [|reflexivity].
    unfold runPackageTests. now rewrite asyncForEach_map. }
  rewrite Htests.
  destruct (asyncForEach (List.map _ _) run_job st) as [[[]|e] st1]; [|reflexivity].
  clear Htests. revert st1.
  induction IH as [|[key sub] rest Hsub _ IHrest]; intros st1; [reflexivity|].
  rewrite asyncForEach_app. unfold mbind at 1 3, M_bind.
  simpl in Hsub. rewrite Hsub.
  destruct (asyncForEach (plan _ sub setups' finallies') run_job st1) as [[[]|e] st2];
    [apply IHrest|reflexivity].
Qed.

Lemma plan_length (p : Package) :
  forall package_path setups finallies,
    List.length (plan package_path p setups finallies) = count_tests p.
Proof.
  induction p as [s t f subs IH] using Package_tree_ind.
  intros package_path setups finallies.
  cbn [plan count_tests setup tests finally packages].
  rewrite length_app, length_map. f_equal.
  induction IH as [|[key sub] rest Hsub _ IHrest]; [reflexivity|].
  rewrite length_app. simpl in Hsub. now rewrite Hsub, IHrest.
Qed.

(** Jobs that all resolve count one executed test each, and one passed or
    failed test each. *)
Lemma jobs_counts (js : list Job) :
  forall st st',
    asyncForEach js run_job st = (Ok (), st') ->
    executed (results st') = (executed (results st) + List.length js)%nat
    /\ (passed (results st') + failed (results st')
        = passed (results st) + failed (results st) + List.length js)%nat.
Proof.
  induction js as [|j js IH]; intros st st' H.
  - injection H as <-. simpl. lia.
  - simpl in H. apply bind_ok_inv in H as ([] & st1 & Hj & Hrest).
    apply runOneTest_counts in Hj as [He Hpf].
    apply IH in Hrest as [-> ->]. simpl. lia.
Qed.

(** ** Hook chains *)


(** ** The suite from hook to hook *)

Section Flow.

Implicit Types (test : Func) (hooks setups finallies : list Func) (st : State).


Lemma returns_thread hooks s : Forall returns hooks -> exists s', thread hooks s = Some s'.
Proof.
  intros Hall. revert s. induction Hall as [|h hooks Hh _ IH]; intros s.
  - now exists s.
  - destruct (Hh s) as [s1 Hs1]. cbn [thread]. rewrite Hs1. apply IH.
Qed.



End Flow.

(** ** Whole runs *)

(** [start] is the traversal of the package [ready] has reached. *)
Lemma start_plan (i : Instance) :
  start i initial_state
  = asyncForEach
      (plan (default "" (package i)) (default empty_package (this_tests i))
         (this_setups i) (this_finallies i))
      run_job initial_state.
Proof.
  unfold start. rewrite (bind_ok _ _ initial_state () initial_state) by reflexivity.
  apply processPackage_plan.
Qed.

(** Without a package path the run is the traversal of the whole tree. *)
Lemma run_root (path : option string) (root : Package) :
  path = None \/ path = Some "" ->
  run path root = asyncForEach (plan "" root [] []) run_job initial_state.
Proof. intros [-> | ->]; unfold run; simpl; now rewrite start_plan. Qed.

Lemma run_counts (path : option string) (root : Package) (st : State) :
  run path root = (Ok (), st) ->
  exists js,
    executed (results st) = List.length js
    /\ (passed (results st) + failed (results st))%nat = List.length js
    /\ (path = None \/ path = Some "" -> js = plan "" root [] []).
Proof.
  unfold run. destruct (ready (instance path root)) as [i|e] eqn:Hready; [|discriminate].
  rewrite start_plan. intros H. apply jobs_counts in H as [He Hpf].
  eexists. split; [exact He|]. split; [exact Hpf|].
  intros [-> | ->]; injection Hready as <-; reflexivity.
Qed.





(** C8.  When a run completes, the report has [executed = passed +
    failed]: a unit test that runs to its end adds one to [executed] and
    one to exactly one of [passed] and [failed]. *)
Theorem executed_is_passed_plus_failed
    (path : option string) (root : Package) (st : State)
    (package_path : string) (setups finallies : list Func) (test : Func)
    (st0 st1 : State) :
  (run path root = (Ok (), st) ->
   executed (getValue st) = (passed (getValue st) + failed (getValue st))%nat)
  /\ (runOneTest package_path setups finallies test st0 = (Ok (), st1) ->
      executed (results st1) = S (executed (results st0))
      /\ (passed (results st1) = S (passed (results st0))
          /\ failed (results st1) = failed (results st0)
          \/ passed (results st1) = passed (results st0)
             /\ failed (results st1) = S (failed (results st0)))).
Proof.
  split.
  - intros H. apply run_counts in H as (js & He & Hpf & _).
    unfold getValue. now rewrite He, Hpf.
  - rewrite runOneTest_until. intros H.
    apply bind_ok_inv in H as ([] & st' & Huntil & Hfinal).
    apply until_result_spec in Huntil as (_ & He & Hpf & Hp & _).
    apply hooks_frame in Hfinal as [-> _]. split; [exact He|].
    destruct (to_boolean (result (current st'))); [left|right]; lia.
Qed.

Lemma executed_is_passed_plus_failed_witness :
  run None DefaultTests.tests_js = (Ok (), snd (run None DefaultTests.tests_js))
  /\ executed (getValue (snd (run None DefaultTests.tests_js))) = 11%nat
  /\ (passed (getValue (snd (run None DefaultTests.tests_js)))
      + failed (getValue (snd (run None DefaultTests.tests_js))))%nat = 11%nat.
Proof.
  assert (H : run None DefaultTests.tests_js
              = (Ok (), snd (run None DefaultTests.tests_js)))
    by (vm_compute; reflexivity).
  split; [exact H|].
  pose proof (proj1 (executed_is_passed_plus_failed None DefaultTests.tests_js _
                       "" [] [] DefaultTests.catchError initial_state initial_state) H)
    as Heq.
  split; [vm_compute; reflexivity|]. rewrite <- Heq. vm_compute; reflexivity.
Defined.

(** C3, as amended.  With an empty or absent package path [ready]
    collects no hook and leaves [this.tests] at the root, and the run is
    the traversal of the whole tree from its root with empty inherited
    hook lists: when it completes, [executed] (and [passed + failed]) is
    the number of unit tests of the tree, so the counters are all zero
    only for a tree without tests. *)
Theorem empty_path_runs_whole_tree (path : option string) (root : Package) :
  path = None \/ path = Some "" ->
  ready (instance path root) = Ok (instance path root)
  /\ run path root = processPackage "" root [] [] initial_state
  /\ forall st,
       run path root = (Ok (), st) ->
       executed (getValue st) = count_tests root
       /\ (passed (getValue st) + failed (getValue st))%nat = count_tests root.
Proof.
  intros Hpath. split; [now destruct Hpath as [-> | ->]|]. split.
  - rewrite run_root by assumption. symmetry. apply processPackage_plan.
  - intros st H. apply run_counts in H as (js & He & Hpf & Hjs).
    rewrite (Hjs Hpath), plan_length in He, Hpf. now split.
Qed.

Lemma empty_path_runs_whole_tree_witness :
  run (Some "") DefaultTests.tests_js
  = processPackage "" DefaultTests.tests_js [] [] initial_state.
Proof.
  apply (empty_path_runs_whole_tree (Some "") DefaultTests.tests_js). now right.
Defined.

(** C3, as stated, fails: with an empty and with an absent package path,
    the run of a package with a setup function, one passing test and a
    finalize function calls all three and counts one executed, one passed
    test. *)
Lemma empty_path_is_not_a_noop :
  let root := small_package (does "t" suite.passed) in
  (fst (run (Some "") root) = Ok ()
   /\ executed (getValue (snd (run (Some "") root))) = 1%nat
   /\ passed (getValue (snd (run (Some "") root))) = 1%nat
   /\ trace (snd (run (Some "") root))
      = [EvSetup "before" 0; EvTest "t" 0; EvFinally "after" 0])
  /\ (fst (run None root) = Ok ()
      /\ executed (getValue (snd (run None root))) = 1%nat
      /\ passed (getValue (snd (run None root))) = 1%nat
      /\ trace (snd (run None root))
         = [EvSetup "before" 0; EvTest "t" 0; EvFinally "after" 0]).
Proof. vm_compute. repeat split. Qed.

(** ** A test on its own *)

(** The report of a package of one unit test and no hook: one executed
    test, counted as its result says, and one entry of [details]. *)
Lemma lone_test_report (test : Func) (st1 : State) :
  try_catch (call_func EvTest test) on_error
    (mkState (mkResults 1 0 0 ∅) new_suite 1 []) = (Ok (), st1) ->
  exists st,
    run None (lone test) = (Ok (), st)
    /\ executed (getValue st) = 1%nat
    /\ passed (getValue st) = (if to_boolean (result (current st1)) then 1 else 0)%nat
    /\ failed (getValue st) = (if to_boolean (result (current st1)) then 0 else 1)%nat
    /\ details (getValue st) = {[ detail_key "" test := detail_entry (current st1) ]}.
Proof.
  intros Htry.
  pose proof (try_test_frame _ _ _ _ Htry) as (Hr & _ & _).
  destruct (showResult_spec "" test st1)
    as (st2 & Hshow & _ & _ & _ & He & Hpf & Hp & Hd).
  exists st2. split.
  - rewrite run_root by auto.
    change ((runOneTest "" [] [] test ;; mret ()) initial_state = (Ok (), st2)).
    assert (Hone : runOneTest "" [] [] test initial_state = (Ok (), st2)).
    { unfold runOneTest.
      rewrite (bind_ok _ _ initial_state () (create_suite initial_state))
        by reflexivity.
      rewrite (bind_ok _ _ (create_suite initial_state) () (create_suite initial_state))
        by reflexivity.
      rewrite (bind_ok _ _ (create_suite initial_state) ()
                 (mkState (mkResults 1 0 0 ∅) new_suite 1 [])) by reflexivity.
      rewrite (bind_ok _ _ _ _ _ Htry). now rewrite (bind_ok _ _ _ _ _ Hshow). }
    now rewrite (bind_ok _ _ _ _ _ Hone).
  - unfold getValue. simpl in Hr. rewrite Hr in He, Hpf, Hp, Hd. simpl in *.
    rewrite He, Hd. rewrite Hp in Hpf |- *.
    repeat split; try reflexivity.
    destruct (to_boolean (result (current st1))); lia.
Qed.

(** The same for a test that calls assertion operations and returns. *)
Lemma lone_calls_report (n : string) (f : Suite -> Suite) :
  exists st,
    run None (lone (does n f)) = (Ok (), st)
    /\ executed (getValue st) = 1%nat
    /\ passed (getValue st) = (if to_boolean (result (f new_suite)) then 1 else 0)%nat
    /\ failed (getValue st) = (if to_boolean (result (f new_suite)) then 0 else 1)%nat
    /\ details (getValue st) = {[ "." +:+ n := detail_entry (f new_suite) ]}.
Proof.
  apply (lone_test_report (does n f)
           (set_current (f new_suite)
              (log (EvTest n 0) (mkState (mkResults 1 0 0 ∅) new_suite 1 [])))).
  now apply try_test_returns.
Qed.

(** ** Equality in the assertion operations *)

Lemma json_text_ignores_address (l1 l2 : loc) (props : list (string * value)) :
  JSON_stringify (VObject l1 props) = JSON_stringify (VObject l2 props).
Proof. reflexivity. Qed.

Lemma JSON_stringify_object (l : loc) (props : list (string * value)) :
  exists t, JSON_stringify (VObject l props) = VStr t.
Proof. unfold JSON_stringify. simpl. eauto. Qed.

(** ** The entries of [details] *)

Lemma strict_eq_undefined (v : value) :
  strict_eq v VUndefined = true <-> v = VUndefined.
Proof. destruct v; simpl; split; congruence. Qed.

Lemma detail_entry_without_pair (s : Suite) :
  expected s = VUndefined \/ actual s = VUndefined ->
  detail_entry s = if to_boolean (message s) then message s else result s.
Proof.
  intros H. unfold detail_entry.
  assert (Hno : negb (strict_eq (expected s) VUndefined)
                && negb (strict_eq (actual s) VUndefined) = false).
  { destruct H as [-> | ->]; simpl; [reflexivity|apply andb_false_r]. }
  now rewrite <- andb_assoc, Hno, andb_false_r.
Qed.

Lemma detail_entry_pair (s : Suite) :
  to_boolean (result s) = false ->
  expected s <> VUndefined -> actual s <> VUndefined ->
  detail_entry s = expected_actual (expected s) (actual s).
Proof.
  intros Hr He Ha. unfold detail_entry. rewrite Hr.
  destruct (strict_eq (expected s) VUndefined) eqn:E;
    [now apply strict_eq_undefined in E|].
  destruct (strict_eq (actual s) VUndefined) eqn:E';
    [now apply strict_eq_undefined in E'|].
  reflexivity.
Qed.

(** C6.  [showResult] leaves one entry in [details] for the test, under
    the key [package_path + "." + test.name]; its value is the result,
    replaced by the message when there is one, replaced by the pair
    [{expected, actual}] when the test failed and both values are set.
    Every unit test that reaches [showResult] has this entry, whatever
    the setup functions did. *)
Theorem details_entry_key_and_precedence
    (package_path : string) (setups : list Func) (test : Func) (st : State) :
  (exists st',
     showResult package_path test st = (Ok (), st')
     /\ details (results st')
        = <[package_path +:+ "." +:+ name test := detail_entry (current st)]>
            (details (results st)))
  /\ (forall st1,
        until_result package_path setups test st = (Ok (), st1) ->
        details (results st1) !! (package_path +:+ "." +:+ name test)
        = Some (detail_entry (current st1))).
Proof.
  split.
  - destruct (showResult_spec package_path test st) as (st' & Hshow & H).
    exists st'. split; [exact Hshow|]. apply H.
  - intros st1 H. apply until_result_spec in H as (_ & _ & _ & _ & ->).
    apply lookup_insert_eq.
Qed.

Lemma details_entry_key_and_precedence_witness :
  details (results (snd (until_result "pkg" [] (does "t" (suite.failed (VStr "why")))
                           initial_state))) !! "pkg.t"
  = Some (VStr "why").
Proof.
  apply (proj2 (details_entry_key_and_precedence "pkg" []
                  (does "t" (suite.failed (VStr "why"))) initial_state)).
  reflexivity.
Defined.

(** C10.  The pair [{expected, actual}] becomes the entry of a failed
    test only when both recorded values are defined: if either is
    [undefined] the entry is the message, or else the result; a test that
    fails in [assertSame(undefined, x)] is reported with the entry
    [false]. *)
Theorem pair_needs_expected_and_actual
    (package_path : string) (test : Func) (st : State) (n : string) (x : value) :
  (expected (current st) = VUndefined \/ actual (current st) = VUndefined ->
   exists st',
     showResult package_path test st = (Ok (), st')
     /\ details (results st') !! detail_key package_path test
        = Some (if to_boolean (message (current st)) then message (current st)
                else result (current st)))
  /\ (to_boolean (result (current st)) = false ->
      expected (current st) <> VUndefined -> actual (current st) <> VUndefined ->
      exists st',
        showResult package_path test st = (Ok (), st')
        /\ details (results st') !! detail_key package_path test
           = Some (expected_actual (expected (current st)) (actual (current st))))
  /\ (is_nullish x = false ->
      exists st',
        run None (lone (does n (suite.assertSame VUndefined x))) = (Ok (), st')
        /\ failed (getValue st') = 1%nat
        /\ details (getValue st') = {[ "." +:+ n := VBool false ]}).
Proof.
  destruct (showResult_spec package_path test st)
    as (st' & Hshow & _ & _ & _ & _ & _ & _ & Hd).
  split; [|split].
  - intros H. exists st'. split; [exact Hshow|].
    now rewrite Hd, lookup_insert_eq, detail_entry_without_pair.
  - intros Hr He Ha. exists st'. split; [exact Hshow|].
    now rewrite Hd, lookup_insert_eq, detail_entry_pair.
  - intros Hx.
    assert (Hcall : suite.assertSame VUndefined x new_suite
                    = mkSuite (VBool false) VUndefined VUndefined x (VBool true) ∅).
    { unfold suite.assertSame, loose_eq. destruct x; try discriminate; reflexivity. }
    destruct (lone_calls_report n (suite.assertSame VUndefined x))
      as (st1 & Hrun & _ & _ & Hf & Hd1).
    rewrite Hcall in Hf, Hd1. now exists st1.
Qed.

Lemma pair_needs_expected_and_actual_witness :
  exists st',
    run None (lone (does "t" (suite.assertSame VUndefined (VNum (Int 1))))) = (Ok (), st')
    /\ failed (getValue st') = 1%nat
    /\ details (getValue st') = {[ ".t" := VBool false ]}.
Proof.
  apply (proj2 (proj2 (pair_needs_expected_and_actual
                         "" (does "t" id) initial_state "t" (VNum (Int 1))))).
  reflexivity.
Defined.

(** ** Errors *)

Lemma error_text_Error (l : loc) (n m : string) :
  error_text (Error l n m) = n +:+ (if String.eqb m "" then "" else ": " +:+ m).
Proof.
  unfold error_text, Error, get_prop. cbn [List.find fst snd String.eqb Ascii.eqb Bool.eqb].
  cbn [to_string to_boolean]. now destruct (String.eqb m "").
Qed.

(** A test that throws an error (any value but [undefined] and [null])
    while [suite.abort] is not set is recorded as failed, with the text
    [e.name + (e.message ? ": " + e.message : "")] as message when the
    text is not empty, and the [try] statement resolves; when
    [suite.abort] is already set the thrown value is dropped and the suite
    stays as the test left it, so a test that calls [suite.failed("boom")]
    and then throws is reported with the entry ["boom"]. *)
Theorem thrown_error_is_recorded_unless_aborted
    (test : Func) (st : State) (e : value) (s' : Suite)
    (n : string) (l : loc) (ename emessage : string) :
  body test (current st) = Throw e s' ->
  (to_boolean (abort s') = false -> is_nullish e = false ->
   try_catch (call_func EvTest test) on_error st
   = (Ok (), set_current (setResult false (VStr (error_text e)) s')
               (log (EvTest (name test) (suite_id st)) st))
   /\ result (setResult false (VStr (error_text e)) s') = VBool false
   /\ to_boolean (abort (setResult false (VStr (error_text e)) s')) = true
   /\ (error_text e <> "" ->
       message (setResult false (VStr (error_text e)) s') = VStr (error_text e)))
  /\ (to_boolean (abort s') = true ->
      try_catch (call_func EvTest test) on_error st
      = (Ok (), set_current s' (log (EvTest (name test) (suite_id st)) st)))
  /\ error_text (Error l ename emessage)
     = ename +:+ (if String.eqb emessage "" then "" else ": " +:+ emessage)
  /\ (exists st',
        run None (lone (fails_then_throws n "boom" (Error l ename emessage)))
        = (Ok (), st')
        /\ failed (getValue st') = 1%nat
        /\ details (getValue st') = {[ "." +:+ n := VStr "boom" ]}).
Proof.
  intros Hbody. split; [|split; [|split]].
  - intros Hopen He. split; [now apply try_test_throws|].
    split; [now apply setResult_false_result|].
    split; [apply setResult_false_aborts|].
    intros Htext. unfold setResult. rewrite Hopen.
    cbn [to_boolean typeof negb String.eqb Ascii.eqb Bool.eqb].
    destruct (String.eqb (error_text e) "") eqn:E; [now apply String.eqb_eq in E|].
    reflexivity.
  - intros Haborted. exact (try_test_throws_aborted _ _ _ _ Hbody Haborted).
  - apply error_text_Error.
  - pose (t := fails_then_throws n "boom" (Error l ename emessage)).
    destruct (lone_test_report t
                (set_current (suite.failed (VStr "boom") new_suite)
                   (log (EvTest n 0) (mkState (mkResults 1 0 0 ∅) new_suite 1 []))))
      as (st' & Hrun & _ & _ & Hf & Hd).
    { exact (try_test_throws_aborted t (mkState (mkResults 1 0 0 ∅) new_suite 1 [])
               (Error l ename emessage) (suite.failed (VStr "boom") new_suite)
               eq_refl eq_refl). }
    now exists st'.
Qed.

Lemma thrown_error_is_recorded_unless_aborted_witness :
  try_catch (call_func EvTest DefaultTests.catchError) on_error initial_state
  = (Ok (), set_current (setResult false (VStr "Error") new_suite)
              (log (EvTest "catchError" 0) initial_state)).
Proof.
  apply (thrown_error_is_recorded_unless_aborted DefaultTests.catchError initial_state
           (Error 3 "Error" "") new_suite "t" 3%nat "Error" "" eq_refl);
    reflexivity.
Defined.

(** A job that ends in a hook fault rejects with the error of the hook,
    in the state the hook left. *)
Lemma hook_fault_rejects (j : Job) (st : State) (e : value) (st' : State) :
  hook_fault j st e st' ->
  run_job j st = (Err e, st')
  /\ (executed (results st') <= S (executed (results st)))%nat.
Proof.
  intros [Hsetup | (st1 & Huntil & Hfinally)]; unfold run_job.
  - destruct (runOneTest_setup_fault (job_path j) (job_setups j) (job_finallies j)
                (job_test j) st e st' Hsetup) as [-> ->].
    split; [reflexivity|lia].
  - rewrite runOneTest_until, (bind_ok _ _ _ _ _ Huntil). split; [exact Hfinally|].
    apply until_result_spec in Huntil as (_ & He & _).
    apply hooks_frame in Hfinally as [-> _]. lia.
Qed.

(** C9.  A setup or finalize function that rejects is not caught: the
    unit test it belongs to rejects with the same error, and so does
    [processPackage], in the state the hook left, whatever tests and
    packages come after it in the traversal: none of them is run, and
    [executed] counts no test after the faulty one. *)
Theorem hook_fault_ends_the_traversal
    (package_path : string) (p : Package) (setups finallies : list Func)
    (js1 js2 : list Job) (j : Job) (st st1 st2 : State) (e : value) :
  plan package_path p setups finallies = js1 ++ j :: js2 ->
  asyncForEach js1 run_job st = (Ok (), st1) ->
  hook_fault j st1 e st2 ->
  run_job j st1 = (Err e, st2)
  /\ processPackage package_path p setups finallies st = (Err e, st2)
  /\ (executed (results st2) <= executed (results st) + S (List.length js1))%nat.
Proof.
  intros Hplan Hbefore Hfault.
  apply hook_fault_rejects in Hfault as [Hj He].
  split; [exact Hj|]. split.
  - rewrite processPackage_plan, Hplan.
    now apply (asyncForEach_rejects js1 j js2 run_job st st1 e st2).
  - apply jobs_counts in Hbefore as [Hbefore _]. lia.
Qed.

(** A broken setup function in front of two tests and a subpackage: the
    run rejects on the first call of the hook, with nothing executed. *)
Lemma hook_fault_ends_the_traversal_witness :
  let p := mkPackage (Some (broken_hook "before"))
             (Some [does "t" suite.passed; does "u" suite.passed]) None
             [("child", lone (does "v" suite.passed))] in
  processPackage "" p [] [] initial_state
  = (Err (Error 7 "Error" "broken"),
     mkState initial_results new_suite 1 [EvSetup "before" 0]).
Proof.
  intros p.
  refine (proj1 (proj2 (hook_fault_ends_the_traversal "" p [] []
                          [] [mkJob "" [broken_hook "before"] [] (does "u" suite.passed);
                              mkJob "child" [broken_hook "before"] []
                                (does "v" suite.passed)]
                          (mkJob "" [broken_hook "before"] [] (does "t" suite.passed))
                          initial_state initial_state _ _ _ _ _))).
  - reflexivity.
  - reflexivity.
  - left. reflexivity.
Defined.

(** A test that rejects with [undefined] or [null] before any failure
    was recorded: reading [e.name] throws inside the [catch] clause, and
    that error leaves the [try] statement. *)
Lemma nullish_rejection_escapes (n : string) (st : State) :
  fst (try_catch (call_func EvTest (mkFunc n (fun s => Throw VUndefined s))) on_error
         (set_current new_suite st))
  = Err (TypeError "Cannot read properties of undefined (reading 'name')").
Proof. reflexivity. Qed.

(** ** The default tests *)

(** The run of [tests.js] without a package path: eleven tests, seven
    passed, four failed. *)
Example default_tests_report :
  let st := snd (run None DefaultTests.tests_js) in
  fst (run None DefaultTests.tests_js) = Ok ()
  /\ executed (getValue st) = 11%nat
  /\ passed (getValue st) = 7%nat
  /\ failed (getValue st) = 4%nat
  /\ details (getValue st) !! ".failed" = Some (VBool false)
  /\ details (getValue st) !! ".assertEquals" = Some (VBool true)
  /\ details (getValue st) !! ".assertSame"
     = Some (expected_actual (DefaultTests.one_two_three 1) (DefaultTests.one_two_three 2))
  /\ details (getValue st) !! "subpackage.catchError" = Some (VStr "Error")
  /\ details (getValue st) !! "subpackage.eachNumber" = Some (VBool true).
Proof. vm_compute. repeat split. Qed.

(** The run of the package path [subpackage]: its three tests, with the
    hooks of the root collected by [ready]. *)
Example default_subpackage_report :
  let st := snd (run (Some "subpackage") DefaultTests.tests_js) in
  fst (run (Some "subpackage") DefaultTests.tests_js) = Ok ()
  /\ executed (getValue st) = 3%nat
  /\ passed (getValue st) = 2%nat
  /\ failed (getValue st) = 1%nat
  /\ trace st
     = [EvSetup "setup" 0; EvTest "catchError" 0; EvFinally "finally" 0;
        EvSetup "setup" 1; EvTest "hasNumbers" 1; EvFinally "finally" 1;
        EvSetup "setup" 2; EvTest "eachNumber" 2; EvFinally "finally" 2].
Proof. vm_compute. repeat split. Qed.

(** * Further properties of the assertion operations *)

Section Verdicts.

Implicit Types (s : Suite) (c : call) (cs pre post : list call).

Lemma setResult_result_open res msg s :
  to_boolean (abort s) = false -> result (setResult res msg s) = VBool res.
Proof.
  intros H. destruct res; [now rewrite setResult_passes|now apply setResult_false_result].
Qed.

(** The arguments a call hands to [setResult] do not depend on the suite. *)
Lemma invoke_uniform c :
  exists msg, forall s, invoke c s = setResult (verdict c) msg s.
Proof.
  destruct c; unfold verdict; cbn [invoke];
    unfold suite.passed, suite.failed, suite.assertTrue, suite.assertFalse,
      suite.assertSame, suite.assertEquals, suite.assertNotEquals, suite.assertNotSame;
    rewrite setResult_result_open by reflexivity; cbn [to_boolean]; eauto.
Qed.

Lemma invoke_result_open c s :
  to_boolean (abort s) = false -> result (invoke c s) = VBool (verdict c).
Proof.
  intros H. destruct (invoke_uniform c) as [msg ->].
  now apply setResult_result_open.
Qed.

Lemma invoke_pass_open c s :
  to_boolean (abort s) = false -> verdict c = true ->
  invoke c s = set_result (VBool true) s.
Proof.
  intros H Hc. destruct (invoke_uniform c) as [msg ->]. rewrite Hc.
  now apply setResult_passes.
Qed.

(** A failing call overwrites the result, so it does not see what passing
    calls before it recorded. *)
Lemma invoke_fail_after_pass c s v :
  to_boolean (abort s) = false -> verdict c = false ->
  invoke c (set_result v s) = invoke c s.
Proof.
  intros H Hc. destruct (invoke_uniform c) as [msg Hmsg].
  rewrite !Hmsg, Hc. unfold setResult. cbn [abort set_result]. rewrite H.
  destruct (negb (to_boolean msg)); [reflexivity|].
  destruct (String.eqb (typeof msg) "string"); reflexivity.
Qed.

Lemma invoke_all_cons c cs s : invoke_all (c :: cs) s = invoke_all cs (invoke c s).
Proof. reflexivity. Qed.

Lemma invoke_all_app pre post s :
  invoke_all (pre ++ post) s = invoke_all post (invoke_all pre s).
Proof. unfold invoke_all. apply fold_left_app. Qed.

(** Passing calls leave an open suite open, with the result [true] once
    one was made. *)
Lemma invoke_all_passes pre s :
  to_boolean (abort s) = false -> forallb verdict pre = true ->
  invoke_all pre s = match pre with [] => s | _ => set_result (VBool true) s end.
Proof.
  revert s. induction pre as [|c pre IH]; intros s H Hall; [reflexivity|].
  cbn [forallb] in Hall. apply andb_prop in Hall as [Hc Hpre].
  rewrite invoke_all_cons, invoke_pass_open by assumption.
  rewrite IH by assumption. now destruct pre.
Qed.

End Verdicts.

(** X1.  The result of a test is the conjunction of its assertions: on an
    open suite a non-empty sequence of calls leaves the result [true] when
    every call passes and [false] otherwise; a test that makes no call
    leaves the result unset and is counted as failed. *)
Theorem result_is_conjunction_of_verdicts (n : string) (c : call) (cs : list call) (s : Suite) :
  to_boolean (abort s) = false ->
  result (invoke_all (c :: cs) s) = VBool (forallb verdict (c :: cs))
  /\ (exists st,
        run None (lone (does n (invoke_all (c :: cs)))) = (Ok (), st)
        /\ passed (getValue st) = (if forallb verdict (c :: cs) then 1 else 0)%nat
        /\ failed (getValue st) = (if forallb verdict (c :: cs) then 0 else 1)%nat)
  /\ (exists st,
        run None (lone (does n (invoke_all []))) = (Ok (), st)
        /\ passed (getValue st) = 0%nat /\ failed (getValue st) = 1%nat
        /\ details (getValue st) = {[ "." +:+ n := VUndefined ]}).
Proof.
  intros Hopen.
  assert (Hres : forall s', to_boolean (abort s') = false ->
                   result (invoke_all (c :: cs) s') = VBool (forallb verdict (c :: cs))).
  { clear. revert c. induction cs as [|c' cs IH]; intros c s' Hopen.
    - cbn [forallb]. rewrite andb_true_r. now apply invoke_result_open.
    - rewrite invoke_all_cons. cbn [forallb]. destruct (verdict c) eqn:Hc.
      + rewrite invoke_pass_open by assumption. now apply IH.
      + cbn [andb]. rewrite invoke_all_aborted.
        * rewrite invoke_result_open by assumption. now rewrite Hc.
        * apply invoke_false_aborts. rewrite invoke_result_open by assumption.
          now rewrite Hc. }
  split; [now apply Hres|]. split.
  - destruct (lone_calls_report n (invoke_all (c :: cs))) as (st & Hrun & _ & Hp & Hf & _).
    rewrite (Hres new_suite eq_refl) in Hp, Hf. now exists st.
  - destruct (lone_calls_report n (invoke_all [])) as (st & Hrun & _ & Hp & Hf & Hd).
    now exists st.
Qed.

Lemma result_is_conjunction_of_verdicts_witness :
  result (invoke_all [AssertTrue (VBool true); AssertSame (VNum (Int 1)) (VNum (Int 2));
                      Passed] new_suite) = VBool false.
Proof.
  apply (result_is_conjunction_of_verdicts "t" (AssertTrue (VBool true))
           [AssertSame (VNum (Int 1)) (VNum (Int 2)); Passed] new_suite).
  reflexivity.
Defined.

(** X2.  A failed test is reported by its first failing assertion: after
    calls that pass, the first failing call leaves the suite exactly as
    it would leave a fresh one, and no later call changes it, so the
    result, the message and the expected and actual values, and with
    them the entry of [details], are those of that call alone. *)
Theorem first_failing_call_decides (pre post : list call) (c : call) :
  forallb verdict pre = true -> verdict c = false ->
  invoke_all (pre ++ c :: post) new_suite = invoke c new_suite
  /\ result (invoke c new_suite) = VBool false
  /\ detail_entry (invoke_all (pre ++ c :: post) new_suite)
     = detail_entry (invoke c new_suite).
Proof.
  intros Hpre Hc.
  assert (Heq : invoke_all (pre ++ c :: post) new_suite = invoke c new_suite).
  { rewrite invoke_all_app, invoke_all_cons.
    rewrite (invoke_all_passes pre new_suite eq_refl Hpre).
    assert (Hsame : invoke c match pre with
                             | [] => new_suite
                             | _ => set_result (VBool true) new_suite
                             end = invoke c new_suite).
    { destruct pre; [reflexivity|]. now apply invoke_fail_after_pass. }
    rewrite Hsame. apply invoke_all_aborted, invoke_false_aborts.
    rewrite invoke_result_open by reflexivity. now rewrite Hc. }
  split; [exact Heq|]. split.
  - rewrite invoke_result_open by reflexivity. now rewrite Hc.
  - now rewrite Heq.
Qed.

Lemma first_failing_call_decides_witness :
  invoke_all ([Passed; AssertTrue (VStr "yes")]
              ++ Failed (VStr "first") :: [Failed (VStr "second"); Passed]) new_suite
  = invoke (Failed (VStr "first")) new_suite.
Proof.
  apply (first_failing_call_decides [Passed; AssertTrue (VStr "yes")]
           [Failed (VStr "second"); Passed] (Failed (VStr "first")));
    reflexivity.
Defined.

Section Equalities.

Implicit Types (e a d : value).

Lemma verdict_AssertSame e a : verdict (AssertSame e a) = loose_eq e a.
Proof.
  unfold verdict. cbn [invoke]. unfold suite.assertSame.
  now rewrite setResult_result_open.
Qed.

Lemma verdict_AssertNotSame e a : verdict (AssertNotSame e a) = negb (strict_eq e a).
Proof.
  unfold verdict. cbn [invoke]. unfold suite.assertNotSame.
  now rewrite setResult_result_open.
Qed.

Lemma verdict_AssertNotEquals e a :
  verdict (AssertNotEquals e a)
  = negb (strict_eq (JSON_stringify e) (JSON_stringify a)).
Proof.
  unfold verdict. cbn [invoke]. unfold suite.assertNotEquals, suite.assertNotSame.
  now rewrite setResult_result_open.
Qed.

(** The operand [assertEquals] compares: the JSON text of an object, the
    value itself otherwise. *)
Lemma verdict_AssertEquals e a d :
  verdict (AssertEquals e a d)
  = let e' := if String.eqb (typeof e) "object" then JSON_stringify e else e in
    let a' := if String.eqb (typeof a) "object" then JSON_stringify a else a in
    if to_boolean d then abs_diff_lt e' a' d else strict_eq e' a'.
Proof.
  unfold verdict. cbn [invoke]. unfold suite.assertEquals. cbv zeta.
  now rewrite setResult_result_open.
Qed.

Lemma number_eqb_sym (x y : number) : number_eqb x y = number_eqb y x.
Proof. destruct x, y; simpl; try reflexivity. apply Z.eqb_sym. Qed.

Lemma type_eqb_sym (t u : type) : type_eqb t u = type_eqb u t.
Proof. now destruct t, u. Qed.

Lemma type_eqb_eq (t u : type) : type_eqb t u = true <-> t = u.
Proof. destruct t, u; simpl; split; congruence. Qed.

Lemma strict_eq_sym e a : strict_eq e a = strict_eq a e.
Proof.
  destruct e, a; simpl; try reflexivity;
    auto using number_eqb_sym, String.eqb_sym, Nat.eqb_sym.
  now destruct b, b0.
Qed.

Lemma strict_eq_same_type e a : strict_eq e a = true -> type_of e = type_of a.
Proof. destruct e, a; simpl; congruence. Qed.

Lemma loose_eq_same_type e a : type_of e = type_of a -> loose_eq e a = strict_eq e a.
Proof.
  intros H. unfold loose_eq. apply type_eqb_eq in H. now rewrite H.
Qed.

Lemma loose_eq_sym e a : loose_eq e a = loose_eq a e.
Proof.
  unfold loose_eq. rewrite (type_eqb_sym (type_of a)), (strict_eq_sym a e).
  destruct (type_eqb (type_of e) (type_of a)); [reflexivity|].
  destruct (is_nullish e), (is_nullish a); try reflexivity.
  cbv zeta.
  rewrite (type_eqb_sym (type_of (to_primitive a))),
    (strict_eq_sym (to_primitive a)), (number_eqb_sym (to_number (to_primitive a))).
  reflexivity.
Qed.

Lemma abs_diff_lt_sym e a d : abs_diff_lt e a d = abs_diff_lt a e d.
Proof.
  unfold abs_diff_lt. destruct (to_number e), (to_number a); try reflexivity.
  destruct (to_number d); [reflexivity|].
  now replace (z - z0) with (- (z0 - z)) by lia; rewrite Z.abs_opp.
Qed.

Lemma verdict_AssertEquals_sym e a d :
  verdict (AssertEquals e a d) = verdict (AssertEquals a e d).
Proof.
  rewrite !verdict_AssertEquals. cbv zeta. now rewrite abs_diff_lt_sym, strict_eq_sym.
Qed.

End Equalities.

(** X3.  [assertSame] and [assertNotSame] never both fail on the same
    operands, and they both pass only for operands of different types: for
    two operands of one type exactly one of them passes. *)
Theorem same_and_not_same_overlap_only_across_types (e a : value) :
  (verdict (AssertSame e a) || verdict (AssertNotSame e a) = true)
  /\ (type_of e = type_of a ->
      verdict (AssertNotSame e a) = negb (verdict (AssertSame e a))).
Proof.
  rewrite verdict_AssertSame, verdict_AssertNotSame. split.
  - destruct (strict_eq e a) eqn:Hstrict; [|apply orb_true_r].
    rewrite loose_eq_same_type by now apply strict_eq_same_type.
    now rewrite Hstrict.
  - intros Htype. now rewrite loose_eq_same_type.
Qed.

Lemma same_and_not_same_overlap_only_across_types_witness :
  verdict (AssertNotSame (VStr "a") (VStr "b"))
  = negb (verdict (AssertSame (VStr "a") (VStr "b"))).
Proof.
  apply (same_and_not_same_overlap_only_across_types (VStr "a") (VStr "b")).
  reflexivity.
Defined.

(** X4.  For two operands that are objects (or [null]), [assertNotEquals]
    passes exactly when [assertEquals] without tolerance fails: both
    compare the JSON texts. *)
Theorem not_equals_complements_equals_on_objects (e a : value) :
  typeof e = "object" -> typeof a = "object" ->
  verdict (AssertNotEquals e a) = negb (verdict (AssertEquals e a VUndefined)).
Proof.
  intros He Ha. rewrite verdict_AssertNotEquals, verdict_AssertEquals.
  cbv zeta. now rewrite He, Ha.
Qed.

Lemma not_equals_complements_equals_on_objects_witness :
  verdict (AssertNotEquals (VArray 1 [VNum (Int 1)]) VNull)
  = negb (verdict (AssertEquals (VArray 1 [VNum (Int 1)]) VNull VUndefined)).
Proof.
  apply (not_equals_complements_equals_on_objects (VArray 1 [VNum (Int 1)]) VNull);
    reflexivity.
Defined.

(** X5.  Whether an equality assertion passes does not depend on which
    operand is given as expected and which as actual. *)
Theorem equality_verdicts_are_symmetric (e a d : value) :
  verdict (AssertSame e a) = verdict (AssertSame a e)
  /\ verdict (AssertNotSame e a) = verdict (AssertNotSame a e)
  /\ verdict (AssertEquals e a d) = verdict (AssertEquals a e d)
  /\ verdict (AssertNotEquals e a) = verdict (AssertNotEquals a e).
Proof.
  split; [|split; [|split]].
  - rewrite !verdict_AssertSame. apply loose_eq_sym.
  - rewrite !verdict_AssertNotSame. now rewrite strict_eq_sym.
  - apply verdict_AssertEquals_sym.
  - rewrite !verdict_AssertNotEquals. now rewrite strict_eq_sym.
Qed.

Lemma round_magnitude_small (a : Z) : a < 2 ^ 53 -> round_magnitude a = a.
Proof.
  intros H. unfold round_magnitude. destruct (a <? 2 ^ 53) eqn:E; [reflexivity|lia].
Qed.

Lemma round_magnitude_large (a : Z) : 2 ^ 53 <= a -> 2 ^ 53 <= round_magnitude a.
Proof.
  intros H. unfold round_magnitude. destruct (a <? 2 ^ 53) eqn:E; [lia|].
  cbv zeta.
  assert (Ha : 0 < a) by lia.
  pose proof (Z.log2_spec a Ha) as [Hlow _].
  assert (Hlog : 53 <= Z.log2 a) by (apply Z.log2_le_pow2; lia).
  set (e := Z.log2 a - 52) in *.
  assert (He : 0 < e) by (subst e; lia).
  assert (Hpow : 2 ^ Z.log2 a = 2 ^ 52 * 2 ^ e)
    by (subst e; rewrite <- Z.pow_add_r by lia; f_equal; lia).
  assert (Hpos : 0 < 2 ^ e) by (apply Z.pow_pos_nonneg; lia).
  assert (Hq : 2 ^ 52 <= a / 2 ^ e) by (apply Z.div_le_lower_bound; lia).
  assert (Hq' : a / 2 ^ e
                <= (if a mod 2 ^ e <? 2 ^ (e - 1) then a / 2 ^ e
                    else if 2 ^ (e - 1) <? a mod 2 ^ e then a / 2 ^ e + 1
                    else if Z.even (a / 2 ^ e) then a / 2 ^ e else a / 2 ^ e + 1)).
  { destruct (a mod 2 ^ e <? 2 ^ (e - 1)); [lia|].
    destruct (2 ^ (e - 1) <? a mod 2 ^ e); [lia|].
    destruct (Z.even (a / 2 ^ e)); lia. }
  assert (Hpow53 : 2 ^ 53 <= 2 ^ 52 * 2 ^ e).
  { rewrite <- Hpow. apply Z.pow_le_mono_r; lia. }
  nia.
Qed.

Lemma round_magnitude_nonneg (a : Z) : 0 <= a -> 0 <= round_magnitude a.
Proof.
  intros H. destruct (Z.lt_ge_cases a (2 ^ 53)) as [Hs | Hl].
  - now rewrite round_magnitude_small.
  - apply round_magnitude_large in Hl. lia.
Qed.

(** X6.  The tolerance of [assertEquals] is used only when it is truthy:
    with a tolerance of 0 (or any falsy value) the operands are compared
    with [===]; for safe integers [x], [y] and a safe integer tolerance
    [t] other than 0 the call passes exactly when [|x - y| < t], so never
    for a negative tolerance. *)
Theorem tolerance_zero_means_exact (e a d : value) (x y t : Z) (s : Suite) :
  (to_boolean d = false ->
   suite.assertEquals e a d s = suite.assertEquals e a VUndefined s)
  /\ (safe_integer x = true -> safe_integer y = true -> safe_integer t = true ->
      verdict (AssertEquals (VNum (Int x)) (VNum (Int y)) (VNum (Int t)))
      = (if t =? 0 then x =? y else Z.abs (x - y) <? t)
      /\ (t < 0 ->
          verdict (AssertEquals (VNum (Int x)) (VNum (Int y)) (VNum (Int t))) = false)).
Proof.
  split.
  - intros Hd. unfold suite.assertEquals. cbv zeta. now rewrite Hd.
  - unfold safe_integer. intros Hx Hy Ht.
    apply Z.ltb_lt in Hx, Hy, Ht.
    assert (Hint : verdict (AssertEquals (VNum (Int x)) (VNum (Int y)) (VNum (Int t)))
                   = (if t =? 0 then x =? y else Z.abs (x - y) <? t)).
    { rewrite verdict_AssertEquals.
      cbn [typeof String.eqb Ascii.eqb Bool.eqb to_boolean strict_eq number_eqb].
      destruct (t =? 0) eqn:E; cbn [negb]; [reflexivity|].
      unfold abs_diff_lt. cbn [to_number to_primitive].
      destruct (Z.lt_ge_cases (Z.abs (x - y)) (2 ^ 53)) as [Hs | Hl].
      - now rewrite round_magnitude_small.
      - pose proof (round_magnitude_large _ Hl) as Hr.
        transitivity false; [|symmetry]; apply Z.ltb_ge; lia. }
    split; [exact Hint|]. intros Hneg. rewrite Hint.
    destruct (t =? 0) eqn:E; lia.
Qed.

Lemma tolerance_zero_means_exact_witness :
  suite.assertEquals (VNum (Int 1)) (VNum (Int 2)) (VNum (Int 0)) new_suite
  = suite.assertEquals (VNum (Int 1)) (VNum (Int 2)) VUndefined new_suite
  /\ verdict (AssertEquals (VNum (Int 10)) (VNum (Int 12)) (VNum (Int 3))) = true
  /\ verdict (AssertEquals (VNum (Int 10)) (VNum (Int 12)) (VNum (Int (-3)))) = false.
Proof.
  destruct (tolerance_zero_means_exact (VNum (Int 1)) (VNum (Int 2)) (VNum (Int 0))
              10 12 3 new_suite) as [Hzero Hthree].
  destruct (tolerance_zero_means_exact (VNum (Int 1)) (VNum (Int 2)) (VNum (Int 0))
              10 12 (-3) new_suite) as [_ Hneg].
  split; [now apply Hzero|]. split.
  - now rewrite (proj1 (Hthree eq_refl eq_refl eq_refl)).
  - apply (Hneg eq_refl eq_refl eq_refl). lia.
Defined.

Lemma typeof_object_stringifies (v : value) :
  typeof v = "object" -> exists t, JSON_stringify v = VStr t.
Proof.
  destruct v; try discriminate; intros _; unfold JSON_stringify; simpl; eauto.
Qed.

(** X7.  [assertEquals] cannot tell an object from its JSON text: for an
    object (or [null]) [o], [assertEquals(o, JSON.stringify(o))] passes;
    and when [assertEquals] fails on an object operand, the value it
    records for it is the JSON text, not the object. *)
Theorem equals_sees_objects_as_json_text (e a : value) :
  typeof e = "object" ->
  verdict (AssertEquals e (JSON_stringify e) VUndefined) = true
  /\ verdict (AssertEquals (JSON_stringify e) e VUndefined) = true
  /\ (verdict (AssertEquals e a VUndefined) = false ->
      expected (suite.assertEquals e a VUndefined new_suite) = JSON_stringify e
      /\ (typeof a = "object" ->
          actual (suite.assertEquals e a VUndefined new_suite) = JSON_stringify a)).
Proof.
  intros He. destruct (typeof_object_stringifies e He) as [t Ht].
  assert (Hpass : verdict (AssertEquals e (JSON_stringify e) VUndefined) = true).
  { rewrite verdict_AssertEquals. cbv zeta. rewrite He, Ht. cbn.
    apply String.eqb_refl. }
  split; [exact Hpass|]. split.
  - now rewrite verdict_AssertEquals_sym.
  - rewrite verdict_AssertEquals. cbv zeta. cbn [to_boolean]. intros Hfail.
    unfold suite.assertEquals. cbv zeta. cbn [to_boolean]. rewrite Hfail, He.
    split; [reflexivity|]. intros Ha. now rewrite Ha.
Qed.

Lemma equals_sees_objects_as_json_text_witness :
  verdict (AssertEquals VNull (VStr "null") VUndefined) = true.
Proof.
  apply (equals_sees_objects_as_json_text VNull VUndefined). reflexivity.
Defined.

(** X8.  [passed], [assertTrue], [assertFalse], [assertNotSame] and
    [assertNotEquals] never write a message or an expected or actual
    value: whatever they are called with, these properties of the suite
    stay as they were, so a test that fails in one of them alone is
    reported with the entry [false]. *)
Theorem plain_assertions_record_no_details (n : string) (c : call) (s : Suite) :
  match c with
  | Passed | AssertTrue _ | AssertFalse _ | AssertNotSame _ _ | AssertNotEquals _ _ => True
  | _ => False
  end ->
  (message (invoke c s) = message s
   /\ expected (invoke c s) = expected s
   /\ actual (invoke c s) = actual s
   /\ custom (invoke c s) = custom s)
  /\ (verdict c = false ->
      exists st,
        run None (lone (does n (invoke c))) = (Ok (), st)
        /\ failed (getValue st) = 1%nat
        /\ details (getValue st) = {[ "." +:+ n := VBool false ]}).
Proof.
  intros Hkind.
  assert (Hcall : exists res, forall s', invoke c s' = setResult res VUndefined s').
  { destruct c; try contradiction; cbn [invoke];
      unfold suite.passed, suite.assertTrue, suite.assertFalse, suite.assertNotEquals,
        suite.assertNotSame; eauto. }
  destruct Hcall as [res Hcall]. split.
  - rewrite Hcall. unfold setResult.
    destruct (to_boolean (abort s)); [now repeat split|].
    destruct res; now repeat split.
  - intros Hfail.
    destruct (lone_calls_report n (invoke c)) as (st & Hrun & _ & _ & Hf & Hd).
    assert (Hres : invoke c new_suite
                   = mkSuite (VBool false) VUndefined VUndefined VUndefined (VBool true) ∅).
    { pose proof (invoke_result_open c new_suite eq_refl) as Hr. rewrite Hfail in Hr.
      rewrite Hcall in Hr |- *. destruct res; [discriminate Hr|reflexivity]. }
    rewrite Hres in Hf, Hd. now exists st.
Qed.

Lemma plain_assertions_record_no_details_witness :
  exists st,
    run None (lone (does "t" (invoke (AssertNotSame (VNum (Int 1)) (VNum (Int 1))))))
    = (Ok (), st)
    /\ failed (getValue st) = 1%nat
    /\ details (getValue st) = {[ ".t" := VBool false ]}.
Proof.
  apply (plain_assertions_record_no_details "t"
           (AssertNotSame (VNum (Int 1)) (VNum (Int 1))) new_suite I).
  reflexivity.
Defined.

(** X9.  What [failed(message)] reports depends on the type of its
    argument: a non-empty string becomes the entry of [details]; an object
    with defined [expected] and [actual] properties becomes the pair of
    them; a falsy argument, and a truthy one that is neither a string nor
    an object with those properties (a number, [true], an array), leaves
    the entry [false]. *)
Theorem failed_reports_by_argument_type
    (n m : string) (l : loc) (props : list (string * value)) (v : value) :
  let entry (x : value) := detail_entry (suite.failed x new_suite) in
  (m <> "" -> entry (VStr m) = VStr m)
  /\ (get_prop (VObject l props) "expected" <> VUndefined ->
      get_prop (VObject l props) "actual" <> VUndefined ->
      entry (VObject l props)
      = expected_actual (get_prop (VObject l props) "expected")
          (get_prop (VObject l props) "actual"))
  /\ (to_boolean v = false \/ (exists z, v = VNum (Int z)) \/ v = VBool true
      \/ (exists l' elems, v = VArray l' elems) ->
      entry v = VBool false)
  /\ (exists st,
        run None (lone (does n (suite.failed v))) = (Ok (), st)
        /\ passed (getValue st) = 0%nat /\ failed (getValue st) = 1%nat
        /\ details (getValue st) = {[ "." +:+ n := entry v ]}).
Proof.
  intros entry. unfold entry. split; [|split; [|split]].
  - intros Hm. unfold suite.failed, setResult.
    cbn [abort new_suite to_boolean typeof negb String.eqb Ascii.eqb Bool.eqb].
    destruct (String.eqb m "") eqn:E; [now apply String.eqb_eq in E|].
    cbn [negb]. unfold detail_entry. cbn. now rewrite E.
  - intros He Ha. unfold suite.failed, setResult.
    cbn [abort new_suite to_boolean typeof negb String.eqb Ascii.eqb Bool.eqb].
    now apply detail_entry_pair.
  - intros [Hfalsy | [[z ->] | [-> | (l' & elems & ->)]]].
    + unfold suite.failed, setResult. cbn [abort new_suite to_boolean].
      now rewrite Hfalsy.
    + unfold suite.failed, setResult. cbn. now destruct (z =? 0).
    + reflexivity.
    + reflexivity.
  - destruct (lone_calls_report n (suite.failed v)) as (st & Hrun & _ & Hp & Hf & Hd).
    assert (Hr : result (suite.failed v new_suite) = VBool false)
      by now apply setResult_false_result.
    rewrite Hr in Hp, Hf. now exists st.
Qed.

Lemma failed_reports_by_argument_type_witness :
  detail_entry (suite.failed (VStr "why") new_suite) = VStr "why"
  /\ detail_entry (suite.failed (VObject 1 [("expected", VNum (Int 1));
                                           ("actual", VNum (Int 2))]) new_suite)
     = expected_actual (VNum (Int 1)) (VNum (Int 2))
  /\ detail_entry (suite.failed (VNum (Int 42)) new_suite) = VBool false.
Proof.
  pose proof (failed_reports_by_argument_type "t" "why" 1%nat
                [("expected", VNum (Int 1)); ("actual", VNum (Int 2))] (VNum (Int 42)))
    as (Hs & Ho & Hv & _).
  split; [apply Hs; discriminate|]. split; [apply Ho; discriminate|].
  apply Hv. right. left. now exists 42.
Defined.

(** * Further properties of the walker *)

Section Jobs.

Implicit Types (j : Job) (js : list Job) (st : State).



End Jobs.




Section Counters.

Implicit Types (j : Job) (js : list Job) (st : State).

(** What one job does to the counters, however it ends. *)
Lemma run_job_counts_any j st o st' :
  run_job j st = (o, st') ->
  (o = Ok () /\ executed (results st') = S (executed (results st))
   /\ settled st' = S (settled st))
  \/ (exists e, o = Err e
      /\ (executed (results st') = executed (results st) /\ settled st' = settled st
          \/ executed (results st') = S (executed (results st))
             /\ (settled st' = settled st \/ settled st' = S (settled st)))).
Proof.
  unfold run_job. rewrite runOneTest_until. unfold mbind at 1, M_bind.
  destruct (until_result _ _ _ st) as [[[]|e] st1] eqn:Huntil.
  - apply until_result_spec in Huntil as (_ & He & Hpf & _).
    intros Hfinal. pose proof (hooks_frame _ _ _ _ _ Hfinal) as [Hr _].
    unfold settled. rewrite Hr. destruct o as [[]|e]; [left|right; exists e]; auto.
  - intros [= <- <-]. right. exists e. split; [reflexivity|].
    revert Huntil. unfold until_result, mbind, M_bind, modify.
    destruct (asyncForEach _ _ (create_suite st)) as [[[]|e1] st2] eqn:Hsetups;
      apply hooks_frame in Hsetups as [Hr2 _].
    + unfold count_executed, modify.
      destruct (try_catch _ _ _) as [[[]|e2] st3] eqn:Htry;
        apply try_test_frame in Htry as (Hr3 & _).
      * discriminate.
      * intros [= _ <-]. right. unfold settled. rewrite Hr3. simpl. rewrite Hr2.
        simpl. auto.
    + intros [= _ <-]. left. unfold settled. now rewrite Hr2.
Qed.

Lemma jobs_counts_any js :
  forall st o st',
    asyncForEach js run_job st = (o, st') ->
    (executed (results st) - settled st <= executed (results st') - settled st'
     <= S (executed (results st) - settled st))%nat
    /\ (settled st <= executed (results st) -> settled st' <= executed (results st'))%nat
    /\ (o = Ok () ->
        (executed (results st') - settled st'
         = executed (results st) - settled st)%nat).
Proof.
  induction js as [|j js IH]; intros st o st' H.
  - injection H as <- <-. repeat split; lia.
  - cbn [asyncForEach] in H. unfold mbind, M_bind in H.
    destruct (run_job j st) as [[[]|e] st1] eqn:Hj;
      apply run_job_counts_any in Hj.
    + destruct Hj as [(_ & He & Hs) | (e & He & _)]; [|discriminate].
      apply IH in H as (Hgap & Hle & Hok). repeat split; try lia.
      intros ->. specialize (Hok eq_refl). lia.
    + injection H as <- <-.
      destruct Hj as [(Hok & _) | (e' & _ & Hcases)]; [discriminate|].
      repeat split; try discriminate; lia.
Qed.

End Counters.

(** X11.  However a run that reaches [start] ends, completed or aborted
    by a hook or by the [catch] clause, its report has [passed + failed
    <= executed <= passed + failed + 1]: at most the unit test during
    which the run was aborted is counted as executed without being
    counted as passed or failed. *)
Theorem executed_runs_ahead_by_at_most_one
    (path : option string) (root : Package) (i : Instance) (o : outcome unit)
    (st : State) :
  ready (instance path root) = Ok i ->
  start i initial_state = (o, st) ->
  run path root = (o, st)
  /\ (passed (getValue st) + failed (getValue st) <= executed (getValue st)
      <= S (passed (getValue st) + failed (getValue st)))%nat.
Proof.
  intros Hready Hstart. split; [unfold run; now rewrite Hready|].
  rewrite start_plan in Hstart. apply jobs_counts_any in Hstart as (Hgap & Hle & _).
  unfold getValue, settled in *. simpl in Hgap, Hle. lia.
Qed.

Lemma executed_runs_ahead_by_at_most_one_witness :
  let root := lone (mkFunc "t" (fun s => Throw VNull s)) in
  executed (getValue (snd (run None root))) = 1%nat
  /\ (passed (getValue (snd (run None root)))
      + failed (getValue (snd (run None root))))%nat = 0%nat
  /\ (passed (getValue (snd (run None root))) + failed (getValue (snd (run None root)))
      <= executed (getValue (snd (run None root)))
      <= S (passed (getValue (snd (run None root)))
            + failed (getValue (snd (run None root)))))%nat.
Proof.
  intros root. split; [reflexivity|]. split; [reflexivity|].
  apply (executed_runs_ahead_by_at_most_one None root (instance None root)
           (fst (run None root)) (snd (run None root)) eq_refl).
  apply surjective_pairing.
Defined.

Section Details.

Implicit Types (j : Job) (js : list Job) (st : State).

(** A job that resolves leaves the report as [showResult] wrote it. *)
Lemma run_job_details j st st' :
  run_job j st = (Ok (), st') ->
  exists st1,
    until_result (job_path j) (job_setups j) (job_test j) st = (Ok (), st1)
    /\ results st' = results st1
    /\ details (results st')
       = <[job_key j := detail_entry (current st1)]> (details (results st)).
Proof.
  unfold run_job. rewrite runOneTest_until. intros H.
  apply bind_ok_inv in H as ([] & st1 & Huntil & Hfinal).
  exists st1. split; [exact Huntil|].
  apply hooks_frame in Hfinal as [-> _]. split; [reflexivity|].
  now apply until_result_spec in Huntil as (_ & _ & _ & _ & ->).
Qed.

Lemma jobs_details_dom js :
  forall st st',
    asyncForEach js run_job st = (Ok (), st') ->
    dom (details (results st'))
    = list_to_set (List.map job_key js) ∪ dom (details (results st)).
Proof.
  induction js as [|j js IH]; intros st st' H.
  - injection H as Heq. subst st'.
    cbn [List.map list_to_set]. now rewrite union_empty_l_L.
  - cbn [asyncForEach] in H. apply bind_ok_inv in H as ([] & st1 & Hj & Hrest).
    apply run_job_details in Hj as (st2 & _ & _ & Hd).
    rewrite (IH _ _ Hrest), Hd, dom_insert_L. cbn [List.map list_to_set].
    rewrite union_assoc_L. f_equal. apply union_comm_L.
Qed.


End Details.

Lemma size_list_to_set_le (keys : list string) :
  (size (list_to_set keys : gset string) <= List.length keys)%nat.
Proof.
  induction keys as [|k keys IH]; cbn [list_to_set List.length].
  - rewrite size_empty. lia.
  - rewrite size_union_alt, size_singleton.
    assert (size (list_to_set keys ∖ {[k]} : gset string)
            <= size (list_to_set keys : gset string))%nat
      by (apply subseteq_size, subseteq_difference_l; reflexivity).
    lia.
Qed.

(** X12.  When a run without package path completes, [details] has an
    entry for exactly the detail keys of the tests of the tree, and so at
    most as many entries as tests were executed. *)
Theorem details_keys_are_the_test_keys (root : Package) (st : State) :
  run None root = (Ok (), st) ->
  dom (details (getValue st)) = list_to_set (List.map job_key (plan "" root [] []))
  /\ (size (details (getValue st)) <= executed (getValue st))%nat.
Proof.
  intros H. rewrite run_root in H by auto.
  pose proof (jobs_details_dom _ _ _ H) as Hdom.
  apply jobs_counts in H as [He _]. unfold getValue. simpl in Hdom, He.
  rewrite dom_empty_L, union_empty_r_L in Hdom. split; [exact Hdom|].
  rewrite <- size_dom, Hdom, He, <- (length_map job_key).
  apply size_list_to_set_le.
Qed.

Lemma details_keys_are_the_test_keys_witness :
  dom (details (getValue (snd (run None (small_package (does "t" suite.passed))))))
  = list_to_set [".t"].
Proof.
  apply (details_keys_are_the_test_keys (small_package (does "t" suite.passed))).
  reflexivity.
Defined.



(** X14.  The counters and the keys of [details] after a unit test do
    not depend on its finalize functions, and neither does an entry that
    is a boolean, a string or another primitive value: whatever the
    finalize functions do to the suite, and whether they return or throw,
    these are as [showResult] left them.  (An entry that is an object is
    left out: a finalize function can reach the expected and actual
    objects of the suite, which the entry refers to.) *)
Theorem counters_and_keys_do_not_depend_on_finalizers
    (package_path : string) (setups finallies finallies' : list Func) (test : Func)
    (st st1 st2 : State) (o1 o2 : outcome unit) :
  runOneTest package_path setups finallies test st = (o1, st1) ->
  runOneTest package_path setups finallies' test st = (o2, st2) ->
  executed (results st1) = executed (results st2)
  /\ passed (results st1) = passed (results st2)
  /\ failed (results st1) = failed (results st2)
  /\ dom (details (results st1)) = dom (details (results st2))
  /\ forall key v,
       details (results st1) !! key = Some v -> typeof v <> "object" ->
       details (results st2) !! key = Some v.
Proof.
  intros H1 H2.
  assert (Hsame : results st1 = results st2).
  { revert H1 H2. rewrite !runOneTest_until. unfold mbind, M_bind.
    destruct (until_result package_path setups test st) as [[[]|e] st0].
    - intros H1 H2. apply hooks_frame in H1 as [-> _].
      now apply hooks_frame in H2 as [-> _].
    - now intros [= _ <-] [= _ <-]. }
  rewrite Hsame. repeat split. intros key v Hv _. exact Hv.
Qed.

Lemma counters_and_keys_do_not_depend_on_finalizers_witness :
  let test := does "t" (suite.assertTrue (VBool false)) in
  failed (results (snd (runOneTest "" [] [does "after" suite.passed] test initial_state)))
  = failed (results (snd (runOneTest "" [] [broken_hook "after"] test initial_state))).
Proof.
  intros test.
  eapply (counters_and_keys_do_not_depend_on_finalizers ""
            [] [does "after" suite.passed] [broken_hook "after"] test initial_state);
    apply surjective_pairing.
Defined.

(** Setup functions that only call assertion operations. *)
Lemma asserting_hooks_run (ev : string -> nat -> event) (named : list (string * list call)) :
  forall st, exists st',
    asyncForEach (List.map (fun nc => does (fst nc) (invoke_all (snd nc))) named)
      (call_func ev) st = (Ok (), st')
    /\ results st' = results st /\ created st' = created st
    /\ current st' = invoke_all (List.concat (List.map snd named)) (current st).
Proof.
  induction named as [|[n cs] named IH]; intros st.
  - exists st. now repeat split.
  - destruct (IH (set_current (invoke_all cs (current st))
                    (log (ev n (suite_id st)) st))) as (st' & Hrun & Hr & Hc & Hcur).
    exists st'. split; [|split; [|split]]; try assumption.
    rewrite Hcur. cbn [List.map List.concat snd current set_current].
    now rewrite invoke_all_app.
Qed.

(** X15.  The suite is shared between the setup functions and the test:
    when both only call assertion operations, the test is judged by all
    those calls in order, the calls of the setup functions first.  So a
    setup function that records a failure fails every test it runs
    before, whatever the test asserts. *)
Theorem setup_assertions_count_for_the_test
    (package_path n : string) (named : list (string * list call)) (cs : list call)
    (st : State) :
  let setups := List.map (fun nc => does (fst nc) (invoke_all (snd nc))) named in
  let all_calls := List.concat (List.map snd named) ++ cs in
  exists st1,
    until_result package_path setups (does n (invoke_all cs)) st = (Ok (), st1)
    /\ current st1 = invoke_all all_calls new_suite
    /\ passed (results st1)
       = (if to_boolean (result (invoke_all all_calls new_suite))
          then S (passed (results st)) else passed (results st))
    /\ details (results st1) !! (package_path +:+ "." +:+ n)
       = Some (detail_entry (invoke_all all_calls new_suite)).
Proof.
  intros setups all_calls.
  destruct (asserting_hooks_run EvSetup named (create_suite st))
    as (st0 & Hsetups & Hr0 & Hc0 & Hcur0).
  set (st2 := set_results
                (mkResults (S (executed (results st0))) (passed (results st0))
                   (failed (results st0)) (details (results st0))) st0).
  pose proof (try_test_returns (does n (invoke_all cs)) st2 _ eq_refl) as Htry.
  destruct (showResult_spec package_path (does n (invoke_all cs))
              (set_current (invoke_all cs (current st2))
                 (log (EvTest n (suite_id st2)) st2)))
    as (st1 & Hshow & Hcur & _ & _ & _ & _ & Hp & Hd).
  assert (Hall : invoke_all cs (current st0) = invoke_all all_calls new_suite).
  { subst all_calls. now rewrite invoke_all_app, Hcur0. }
  exists st1. split; [|split; [|split]].
  - unfold until_result.
    rewrite (bind_ok _ _ st () (create_suite st)) by reflexivity.
    fold setups in Hsetups. rewrite (bind_ok _ _ _ _ _ Hsetups).
    rewrite (bind_ok _ _ st0 () st2) by reflexivity.
    rewrite (bind_ok _ _ _ _ _ Htry). exact Hshow.
  - rewrite Hcur. exact Hall.
  - rewrite Hp. change (current (set_current (invoke_all cs (current st2))
                                   (log (EvTest n (suite_id st2)) st2)))
      with (invoke_all cs (current st0)).
    rewrite Hall. change (passed (results (set_current (invoke_all cs (current st2))
                                             (log (EvTest n (suite_id st2)) st2))))
      with (passed (results st0)).
    now rewrite Hr0.
  - rewrite Hd. change (current (set_current (invoke_all cs (current st2))
                                   (log (EvTest n (suite_id st2)) st2)))
      with (invoke_all cs (current st0)).
    rewrite Hall. apply lookup_insert_eq.
Qed.

(** A setup function that calls [suite.failed("not ready")] before a test
    that calls [suite.passed()]. *)
Lemma setup_assertions_count_for_the_test_witness :
  details (results (snd (until_result "pkg"
                           [does "before" (invoke_all [Failed (VStr "not ready")])]
                           (does "t" (invoke_all [Passed])) initial_state))) !! "pkg.t"
  = Some (VStr "not ready").
Proof.
  destruct (setup_assertions_count_for_the_test "pkg" "t"
              [("before", [Failed (VStr "not ready")])] [Passed] initial_state)
    as (st1 & Hrun & _ & _ & Hd).
  cbn [List.map fst snd] in Hrun. rewrite Hrun. exact Hd.
Defined.

(** * Further properties of [ready] *)

Section Navigation.

Implicit Types (i : Instance) (keys : list string).

Lemma navigate_app keys keys' i :
  navigate (keys ++ keys') i
  = match navigate keys i with
    | Ok i' => navigate keys' i'
    | Err e => Err e
    end.
Proof.
  revert i. induction keys as [|k keys IH]; intros i; [reflexivity|].
  cbn [app navigate]. destruct (this_tests i); [apply IH|reflexivity].
Qed.

Lemma navigate_package keys i i' :
  navigate keys i = Ok i' -> package i' = package i.
Proof.
  revert i. induction keys as [|k keys IH]; intros i.
  - now intros [= <-].
  - cbn [navigate]. destruct (this_tests i); [|discriminate].
    intros H. now apply IH in H.
Qed.

Lemma ready_navigates (path : string) (root : Package) :
  path <> "" ->
  ready (instance (Some path) root)
  = navigate (split_dots path) (instance (Some path) root).
Proof.
  intros Hpath. unfold ready. cbn [package instance to_boolean].
  destruct (String.eqb path "") eqn:E; [now apply String.eqb_eq in E|reflexivity].
Qed.

End Navigation.

(** X16.  A package path that leaves the tree: when its last component
    names no subpackage, [ready] resolves and the run completes without
    calling anything, with all counters zero and no entry; when an
    earlier component names no property of the package at all (no
    subpackage, none of [setup], [tests] and [finally], nothing a plain
    object inherits), [ready] rejects with a [TypeError]. *)
Theorem path_that_leaves_the_tree
    (path : string) (root : Package) (keys rest : list string) (k : string)
    (i : Instance) (p : Package) :
  path <> "" ->
  navigate keys (instance (Some path) root) = Ok i ->
  this_tests i = Some p ->
  find_package k p = None ->
  (split_dots path = keys ++ [k] -> run (Some path) root = (Ok (), initial_state))
  /\ (other_property k = false -> rest <> [] -> split_dots path = keys ++ k :: rest ->
      ready (instance (Some path) root)
      = Err (TypeError "Cannot read properties of undefined (reading 'setup')")).
Proof.
  intros Hpath Hnav Hp Hk. split.
  - intros Hsplit. unfold run.
    rewrite ready_navigates, Hsplit, navigate_app, Hnav by assumption.
    cbn [navigate]. rewrite Hp, Hk. now rewrite start_plan.
  - intros _ Hrest Hsplit.
    rewrite ready_navigates, Hsplit, navigate_app, Hnav by assumption.
    destruct rest as [|k' rest]; [contradiction|].
    cbn [navigate]. rewrite Hp, Hk. reflexivity.
Qed.

Lemma path_that_leaves_the_tree_witness :
  run (Some "subpackage.nowhere") DefaultTests.tests_js = (Ok (), initial_state)
  /\ ready (instance (Some "nowhere.subpackage") DefaultTests.tests_js)
     = Err (TypeError "Cannot read properties of undefined (reading 'setup')").
Proof.
  split.
  - refine (proj1 (path_that_leaves_the_tree "subpackage.nowhere" DefaultTests.tests_js
                     ["subpackage"] [] "nowhere" _ _ _ eq_refl eq_refl eq_refl) eq_refl).
    discriminate.
  - refine (proj2 (path_that_leaves_the_tree "nowhere.subpackage"
                     DefaultTests.tests_js [] ["subpackage"] "nowhere" _ _ _
                     eq_refl eq_refl eq_refl) eq_refl _ eq_refl);
      discriminate.
Defined.

(** * Further properties of the traversal *)

Section Strings.

Implicit Types (a b c : string).

Lemma string_app_assoc a b c : (a +:+ b) +:+ c = a +:+ (b +:+ c).
Proof.
  induction a as [|x a IH]; [reflexivity|].
  change (String x ((a +:+ b) +:+ c) = String x (a +:+ (b +:+ c))). now rewrite IH.
Qed.

Lemma string_app_nil_r a : a +:+ "" = a.
Proof.
  induction a as [|x a IH]; [reflexivity|].
  change (String x (a +:+ "") = String x a). now rewrite IH.
Qed.

Lemma subpath_extends package_path key :
  exists rest, subpath package_path key = package_path +:+ rest.
Proof.
  unfold subpath. cbn [to_boolean].
  destruct (String.eqb package_path "") eqn:E; cbn [negb].
  - apply String.eqb_eq in E as ->. now exists key.
  - exists ("." +:+ key). apply string_app_assoc.
Qed.

End Strings.

(** X17.  Inherited hooks enclose every test of a subtree: each test that
    [processPackage] runs for a package is run with the inherited setup
    functions first, in their order, and with the inherited finalize
    functions last, in their order, and is reported under a key that
    extends the path of the package. *)
Theorem inherited_hooks_enclose_every_test (p : Package) :
  forall (package_path : string) (setups finallies : list Func),
    Forall (fun j => setups `prefix_of` job_setups j
                     /\ finallies `suffix_of` job_finallies j
                     /\ exists rest, job_key j = package_path +:+ rest)
      (plan package_path p setups finallies).
Proof.
  induction p as [s t f subs IH] using Package_tree_ind.
  intros package_path setups finallies.
  cbn [plan setup tests finally packages].
  set (setups' := match s with Some h => setups ++ [h] | None => setups end).
  set (finallies' := match f with Some h => h :: finallies | None => finallies end).
  assert (Hs : setups `prefix_of` setups').
  { subst setups'. destruct s; [now apply prefix_app_r|reflexivity]. }
  assert (Hf : finallies `suffix_of` finallies').
  { subst finallies'. destruct f; [now apply suffix_cons_r|reflexivity]. }
  apply Forall_app. split.
  - apply Forall_map, Forall_forall. intros test _.
    cbn [job_setups job_finallies job_key job_path job_test].
    split; [exact Hs|]. split; [exact Hf|].
    exists ("." +:+ name test). reflexivity.
  - induction IH as [|[key sub] rest Hsub _ IHrest]; [constructor|].
    apply Forall_app. split; [|exact IHrest].
    eapply Forall_impl; [apply (Hsub _ setups' finallies')|].
    intros j (Hjs & Hjf & (r & Hjp)). split; [now transitivity setups'|].
    split; [now transitivity finallies'|].
    destruct (subpath_extends package_path key) as [r' Hr'].
    exists (r' +:+ r). rewrite Hjp. fold (subpath package_path key). rewrite Hr'.
    apply string_app_assoc.
Qed.

Section Paths.

Implicit Types (keys : list string) (i : Instance) (p sub : Package).

Lemma split_dots_nonempty (s : string) : split_dots s <> [].
Proof.
  destruct s as [|a r]; [discriminate|]. cbn [split_dots].
  destruct (Ascii.eqb a "."); [discriminate|].
  destruct (split_dots r); discriminate.
Qed.

(** [s.split(".").join(".")] is [s]. *)
Lemma join_split_dots (s : string) : join "." (split_dots s) = s.
Proof.
  induction s as [|a r IH]; [reflexivity|]. cbn [split_dots].
  destruct (Ascii.eqb a ".") eqn:Ha.
  - apply Ascii.eqb_eq in Ha as ->.
    destruct (split_dots r) as [|h t] eqn:Hr; [now apply split_dots_nonempty in Hr|].
    change (join "." ("" :: h :: t)) with ("" +:+ "." +:+ join "." (h :: t)).
    now rewrite IH.
  - destruct (split_dots r) as [|h t] eqn:Hr; [now apply split_dots_nonempty in Hr|].
    rewrite <- IH. now destruct t.
Qed.

Lemma subpath_nonempty (package_path key : string) :
  package_path <> "" -> subpath package_path key = package_path +:+ "." +:+ key.
Proof.
  intros H. unfold subpath. cbn [to_boolean].
  destruct (String.eqb package_path "") eqn:E; [now apply String.eqb_eq in E|].
  apply string_app_assoc.
Qed.

Lemma app_dot_nonempty (a b : string) : a +:+ "." +:+ b <> "".
Proof. destruct a; discriminate. Qed.

Lemma path_of_join (package_path : string) keys :
  package_path <> "" -> path_of package_path keys = join "." (package_path :: keys).
Proof.
  revert package_path. induction keys as [|k keys IH]; intros package_path H.
  - reflexivity.
  - cbn [path_of]. rewrite subpath_nonempty by assumption.
    rewrite IH by apply app_dot_nonempty.
    destruct keys as [|k' keys]; cbn [join]; [reflexivity|].
    now rewrite !string_app_assoc.
Qed.

(** For a path that does not begin with a dot, the path [processPackage]
    builds key by key is the configured path. *)
Lemma path_of_split_dots (path : string) :
  hd "" (split_dots path) <> "" -> path_of "" (split_dots path) = path.
Proof.
  intros Hhd. rewrite <- (join_split_dots path) at 2.
  destruct (split_dots path) as [|k keys]; [reflexivity|].
  cbn [hd] in Hhd. cbn [path_of]. change (subpath "" k) with k.
  now apply path_of_join.
Qed.

(** The jobs of a subpackage are a segment of the jobs of its package. *)
Lemma plan_of_subpackage (package_path key : string) p sub (setups finallies : list Func) :
  find_package key p = Some sub ->
  exists before after,
    plan package_path p setups finallies
    = before
      ++ plan (subpath package_path key) sub
           (setups ++ option_list (setup p)) (option_list (finally p) ++ finallies)
      ++ after.
Proof.
  destruct p as [s t f subs]. unfold find_package. cbn [packages setup finally].
  intros Hfind. cbn [plan setup tests finally packages].
  replace (match s with Some h => setups ++ [h] | None => setups end)
    with (setups ++ option_list s) by (destruct s; [reflexivity|apply app_nil_r]).
  replace (match f with Some h => h :: finallies | None => finallies end)
    with (option_list f ++ finallies) by now destruct f.
  set (direct := List.map _ _). clearbody direct. revert direct.
  induction subs as [|[k q] rest IH]; intros direct; [discriminate|].
  cbn [List.find fst] in Hfind. destruct (String.eqb k key) eqn:Hk.
  - apply String.eqb_eq in Hk as ->. injection Hfind as ->.
    eexists direct, _. reflexivity.
  - destruct (IH Hfind (direct ++ plan (subpath package_path k) q
                                    (setups ++ option_list s)
                                    (option_list f ++ finallies)))
      as (before & after & Hplan).
    exists before, after. rewrite <- Hplan. now rewrite <- app_assoc.
Qed.

(** The jobs of the package [navigate] reaches, with the functions it
    collects on the way, are a segment of the jobs of the package it
    starts from. *)
Lemma navigate_plan keys :
  forall i i' p sub (package_path : string),
    this_tests i = Some p ->
    navigate keys i = Ok i' ->
    this_tests i' = Some sub ->
    exists before after,
      plan package_path p (this_setups i) (this_finallies i)
      = before
        ++ plan (path_of package_path keys) sub (this_setups i') (this_finallies i')
        ++ after.
Proof.
  induction keys as [|k keys IH]; intros i i' p sub package_path Hp Hnav Hsub.
  - injection Hnav as <-. rewrite Hp in Hsub. injection Hsub as <-.
    exists [], []. now rewrite app_nil_r.
  - cbn [navigate] in Hnav. rewrite Hp in Hnav.
    destruct (find_package k p) as [q|] eqn:Hq.
    + destruct (IH (mkInstance (package i) (Some q)
                      (this_setups i ++ option_list (setup p))
                      (option_list (finally p) ++ this_finallies i))
                  i' q sub (subpath package_path k) eq_refl Hnav Hsub)
        as (b & a & Hinner).
      destruct (plan_of_subpackage package_path k p q (this_setups i)
                  (this_finallies i) Hq) as (B & A & Houter).
      exists (B ++ b), (a ++ A). rewrite Houter.
      cbn [this_setups this_finallies] in Hinner. rewrite Hinner.
      cbn [path_of]. now rewrite <- !app_assoc.
    + destruct keys as [|k' keys]; cbn [navigate this_tests] in Hnav.
      * injection Hnav as <-. discriminate Hsub.
      * discriminate Hnav.
Qed.

End Paths.

(** X18.  Choosing a package by its path runs the same jobs as the
    traversal of the whole tree runs for that package: for a path that
    does not begin with a dot and that leads to a package, the run of the
    path runs a segment of the jobs of the run without path, with the
    same tests, detail keys, setup functions and finalize functions. *)
Theorem path_selects_a_segment_of_the_whole_run
    (path : string) (root sub : Package) (i : Instance) :
  hd "" (split_dots path) <> "" ->
  ready (instance (Some path) root) = Ok i ->
  this_tests i = Some sub ->
  run (Some path) root
  = asyncForEach (plan path sub (this_setups i) (this_finallies i)) run_job initial_state
  /\ exists before after,
       plan "" root [] []
       = before ++ plan path sub (this_setups i) (this_finallies i) ++ after.
Proof.
  intros Hhd Hready Hsub.
  assert (Hpath : path <> "") by (intros ->; now apply Hhd).
  split.
  - unfold run. rewrite Hready, start_plan.
    rewrite ready_navigates in Hready by assumption.
    apply navigate_package in Hready. cbn [package instance] in Hready.
    now rewrite Hready, Hsub.
  - rewrite ready_navigates in Hready by assumption.
    destruct (navigate_plan _ (instance (Some path) root) i root sub "" eq_refl
                Hready Hsub)
      as (before & after & Hplan).
    exists before, after. now rewrite path_of_split_dots in Hplan.
Qed.

Lemma path_selects_a_segment_of_the_whole_run_witness :
  exists i sub before after,
    ready (instance (Some "subpackage") DefaultTests.tests_js) = Ok i
    /\ this_tests i = Some sub
    /\ plan "" DefaultTests.tests_js [] []
       = before ++ plan "subpackage" sub (this_setups i) (this_finallies i) ++ after
    /\ List.length before = 8%nat /\ after = [].
Proof.
  eexists _, _.
  destruct (proj2 (path_selects_a_segment_of_the_whole_run "subpackage"
                     DefaultTests.tests_js _ _ ltac:(discriminate) eq_refl eq_refl))
    as (before & after & Hplan).
  exists (firstn 8 (plan "" DefaultTests.tests_js [] [])), [].
  split; [reflexivity|]. split; [reflexivity|]. split; [reflexivity|]. now split.
Defined.

(** X19.  [ready] collects the hooks of the packages above the chosen one
    in nesting order: the setup functions of the ancestors outermost
    first, after those the instance already holds, and their finalize
    functions innermost first, before those the instance already
    holds. *)
Theorem ready_collects_outside_in_and_inside_out (keys : list string) :
  forall (i i' : Instance) (p : Package),
    this_tests i = Some p ->
    navigate keys i = Ok i' ->
    this_setups i'
    = this_setups i ++ flat_map (fun q => option_list (setup q)) (ancestors keys p)
    /\ this_finallies i'
       = flat_map (fun q => option_list (finally q)) (rev (ancestors keys p))
         ++ this_finallies i.
Proof.
  induction keys as [|k keys IH]; intros i i' p Hp Hnav.
  - injection Hnav as <-. cbn [ancestors rev flat_map]. now rewrite app_nil_r.
  - cbn [navigate] in Hnav. rewrite Hp in Hnav. cbn [ancestors].
    destruct (find_package k p) as [q|] eqn:Hq.
    + destruct (IH (mkInstance (package i) (Some q)
                      (this_setups i ++ option_list (setup p))
                      (option_list (finally p) ++ this_finallies i))
                  i' q eq_refl Hnav) as [-> ->].
      cbn [this_setups this_finallies rev flat_map].
      rewrite flat_map_app. cbn [flat_map]. rewrite app_nil_r.
      now rewrite <- !app_assoc.
    + destruct keys as [|k' keys]; cbn [navigate this_tests] in Hnav;
        [|discriminate Hnav].
      injection Hnav as <-. cbn [this_setups this_finallies rev flat_map app].
      now rewrite !app_nil_r.
Qed.

Lemma ready_collects_outside_in_and_inside_out_witness :
  let outer := does "outer" id in
  let inner := does "inner" id in
  let root :=
    mkPackage (Some outer) None (Some outer)
      [("a", mkPackage (Some inner) None (Some inner) [("b", empty_package)])] in
  exists i,
    navigate ["a"; "b"] (instance (Some "a.b") root) = Ok i
    /\ this_setups i = [outer; inner] /\ this_finallies i = [inner; outer].
Proof.
  intros outer inner root. eexists. split; [reflexivity|].
  exact (ready_collects_outside_in_and_inside_out ["a"; "b"]
           (instance (Some "a.b") root) _ root eq_refl eq_refl).
Defined.

(** X20.  A test that rejects with [undefined] or [null] before a failure
    was recorded aborts the run: the [catch] clause throws a [TypeError]
    when it reads the name of the thrown value, so the unit test rejects
    after [executed] was increased, with no count as passed or failed,
    no entry in [details] and no call of the finalize functions. *)
Theorem nullish_rejection_aborts_the_run
    (package_path : string) (setups finallies : list Func) (test : Func)
    (st st1 : State) (e : value) (s' : Suite) :
  asyncForEach setups (call_func EvSetup) (create_suite st) = (Ok (), st1) ->
  body test (current st1) = Throw e s' ->
  is_nullish e = true ->
  to_boolean (abort s') = false ->
  exists st',
    runOneTest package_path setups finallies test st
    = (Err (TypeError ("Cannot read properties of " +:+ to_string e
                       +:+ " (reading 'name')")), st')
    /\ executed (results st') = S (executed (results st))
    /\ passed (results st') = passed (results st)
    /\ failed (results st') = failed (results st)
    /\ details (results st') = details (results st)
    /\ trace st' = trace st1 ++ [EvTest (name test) (suite_id st1)].
Proof.
  intros Hsetups Hbody He Hopen.
  pose proof (hooks_frame _ _ _ _ _ Hsetups) as [Hr _].
  set (st2 := set_results
                (mkResults (S (executed (results st1))) (passed (results st1))
                   (failed (results st1)) (details (results st1))) st1).
  assert (Htry : try_catch (call_func EvTest test) on_error st2
                 = (Err (TypeError ("Cannot read properties of " +:+ to_string e
                                    +:+ " (reading 'name')")),
                    set_current s' (log (EvTest (name test) (suite_id st2)) st2))).
  { unfold try_catch. rewrite (call_func_throws EvTest test st2 e s' Hbody).
    unfold on_error. cbn [current set_current]. now rewrite Hopen, He. }
  eexists. split.
  - unfold runOneTest.
    rewrite (bind_ok _ _ st () (create_suite st)) by reflexivity.
    rewrite (bind_ok _ _ _ _ _ Hsetups).
    rewrite (bind_ok _ _ st1 () st2) by reflexivity.
    now rewrite (bind_err _ _ _ _ _ Htry).
  - cbn. rewrite Hr. cbn. now repeat split.
Qed.

Lemma nullish_rejection_aborts_the_run_witness :
  fst (run None (mkPackage None
                   (Some [mkFunc "t" (fun s => Throw VUndefined s);
                          does "u" suite.passed])
                   (Some (does "after" id)) []))
  = Err (TypeError "Cannot read properties of undefined (reading 'name')").
Proof.
  destruct (nullish_rejection_aborts_the_run "" [] [does "after" id]
              (mkFunc "t" (fun s => Throw VUndefined s)) initial_state
              (create_suite initial_state) VUndefined new_suite
              eq_refl eq_refl eq_refl eq_refl) as (st' & Hrun & _).
  rewrite run_root by auto.
  change (fst ((runOneTest "" [] [does "after" id]
                  (mkFunc "t" (fun s => Throw VUndefined s)) ;;
                asyncForEach [mkJob "" [] [does "after" id] (does "u" suite.passed)]
                  run_job) initial_state)
          = Err (TypeError "Cannot read properties of undefined (reading 'name')")).
  now rewrite (bind_err _ _ _ _ _ Hrun).
Defined.

(** * The equality of the assertion operations *)

(** C4.  [assertSame] records [expected == actual] and [assertNotSame]
    records [expected !== actual]: on a suite that is still open, for
    every two values of the model's fragment, the result of the one is
    the loose equality of its operands and the result of the other the
    negation of their strict equality.  So both record success on
    operands that are loosely but not strictly equal: [1 == "1"] holds
    and [1 === "1"] does not, and a test that calls [assertSame(1, "1")],
    and one that calls [assertNotSame(1, "1")], is reported as passed. *)
Theorem same_is_loose_and_not_same_is_strict (n : string) (e a : value) (s : Suite) :
  to_boolean (abort s) = false -> plain e = true -> plain a = true ->
  result (suite.assertSame e a s) = VBool (loose_eq e a)
  /\ result (suite.assertNotSame e a s) = VBool (negb (strict_eq e a))
  /\ (loose_eq e a = true -> strict_eq e a = false ->
      result (suite.assertSame e a s) = VBool true
      /\ result (suite.assertNotSame e a s) = VBool true)
  /\ (exists st,
        run None (lone (does n (suite.assertSame e a))) = (Ok (), st)
        /\ passed (getValue st) = (if loose_eq e a then 1 else 0)%nat
        /\ failed (getValue st) = (if loose_eq e a then 0 else 1)%nat)
  /\ (exists st,
        run None (lone (does n (suite.assertNotSame e a))) = (Ok (), st)
        /\ passed (getValue st) = (if strict_eq e a then 0 else 1)%nat
        /\ failed (getValue st) = (if strict_eq e a then 1 else 0)%nat)
  /\ loose_eq (VNum (Int 1)) (VStr "1") = true
  /\ strict_eq (VNum (Int 1)) (VStr "1") = false
  /\ result (suite.assertSame (VNum (Int 1)) (VStr "1") s) = VBool true
  /\ result (suite.assertNotSame (VNum (Int 1)) (VStr "1") s) = VBool true
  /\ (exists st,
        run None (lone (does n (suite.assertSame (VNum (Int 1)) (VStr "1"))))
        = (Ok (), st)
        /\ executed (getValue st) = 1%nat /\ passed (getValue st) = 1%nat
        /\ failed (getValue st) = 0%nat
        /\ details (getValue st) = {[ "." +:+ n := VBool true ]})
  /\ (exists st,
        run None (lone (does n (suite.assertNotSame (VNum (Int 1)) (VStr "1"))))
        = (Ok (), st)
        /\ executed (getValue st) = 1%nat /\ passed (getValue st) = 1%nat
        /\ failed (getValue st) = 0%nat
        /\ details (getValue st) = {[ "." +:+ n := VBool true ]}).
Proof.
  intros Hopen _ _.
  assert (Hsame : forall x y s', to_boolean (abort s') = false ->
                    result (suite.assertSame x y s') = VBool (loose_eq x y)).
  { intros x y s' H. unfold suite.assertSame. now apply setResult_result_open. }
  assert (Hnot : forall x y s', to_boolean (abort s') = false ->
                   result (suite.assertNotSame x y s') = VBool (negb (strict_eq x y))).
  { intros x y s' H. unfold suite.assertNotSame. now apply setResult_result_open. }
  split; [now apply Hsame|]. split; [now apply Hnot|]. split.
  { intros Hloose Hstrict. rewrite Hsame, Hnot, Hloose, Hstrict by assumption.
    now split. }
  split.
  { destruct (lone_calls_report n (suite.assertSame e a)) as (st & Hrun & _ & Hp & Hf & _).
    rewrite (Hsame e a new_suite eq_refl) in Hp, Hf. now exists st. }
  split.
  { destruct (lone_calls_report n (suite.assertNotSame e a))
      as (st & Hrun & _ & Hp & Hf & _).
    rewrite (Hnot e a new_suite eq_refl) in Hp, Hf. exists st.
    split; [exact Hrun|]. now destruct (strict_eq e a). }
  split; [reflexivity|]. split; [reflexivity|].
  split; [now rewrite Hsame|]. split; [now rewrite Hnot|]. split.
  - exact (lone_calls_report n (suite.assertSame (VNum (Int 1)) (VStr "1"))).
  - exact (lone_calls_report n (suite.assertNotSame (VNum (Int 1)) (VStr "1"))).
Qed.

(** [assertSame] and [assertNotSame] on operands that are equal, that are
    loosely equal only, and that differ. *)
Lemma same_is_loose_and_not_same_is_strict_witness :
  (result (suite.assertSame (VNum (Int 1)) (VNum (Int 1)) new_suite) = VBool true
   /\ result (suite.assertNotSame (VNum (Int 1)) (VNum (Int 1)) new_suite) = VBool false)
  /\ (result (suite.assertSame (VNum (Int 1)) (VStr "1") new_suite) = VBool true
      /\ result (suite.assertNotSame (VNum (Int 1)) (VStr "1") new_suite) = VBool true)
  /\ (result (suite.assertSame (VNum (Int 1)) (VStr "2") new_suite) = VBool false
      /\ result (suite.assertNotSame (VNum (Int 1)) (VStr "2") new_suite) = VBool true).
Proof.
  pose proof (same_is_loose_and_not_same_is_strict "t" (VNum (Int 1)) (VNum (Int 1))
                new_suite eq_refl eq_refl eq_refl) as (H1 & H2 & _).
  pose proof (same_is_loose_and_not_same_is_strict "t" (VNum (Int 1)) (VStr "1")
                new_suite eq_refl eq_refl eq_refl) as (H3 & H4 & _).
  pose proof (same_is_loose_and_not_same_is_strict "t" (VNum (Int 1)) (VStr "2")
                new_suite eq_refl eq_refl eq_refl) as (H5 & H6 & _).
  repeat split; assumption.
Defined.

(** C7.  [assertEquals] compares by content: an argument whose [typeof]
    is ["object"] is replaced by its JSON text, and the two operands are
    then compared with [===] and, on failure, recorded as they were
    compared.  So [assertEquals({a: 1}, {a: 1})] on two distinct objects
    records success and [assertEquals({a: 1}, {a: 2})] a failure with the
    two texts, while [assertSame] compares two objects by reference: it
    records success for one object and, for two distinct objects whatever
    they hold, a failure with both objects as expected and actual. *)
Theorem equals_compares_content_and_same_compares_references
    (n : string) (l1 l2 : loc) (props props' : list (string * value)) (e a : value)
    (s : Suite) :
  l1 <> l2 -> to_boolean (abort s) = false -> plain e = true -> plain a = true ->
  result (suite.assertEquals e a VUndefined s)
  = VBool (strict_eq (serialized e) (serialized a))
  /\ (strict_eq (serialized e) (serialized a) = false ->
      expected (suite.assertEquals e a VUndefined s) = serialized e
      /\ actual (suite.assertEquals e a VUndefined s) = serialized a)
  /\ suite.assertEquals (VObject l1 [("a", VNum (Int 1))]) (VObject l2 [("a", VNum (Int 2))])
       VUndefined new_suite
     = mkSuite (VBool false) VUndefined
         (VStr ("{" +:+ json_quote "a" +:+ ":1}")) (VStr ("{" +:+ json_quote "a" +:+ ":2}"))
         (VBool true) ∅
  /\ result (suite.assertEquals (VObject l1 props) (VObject l2 props) VUndefined new_suite)
     = VBool true
  /\ result (suite.assertSame (VObject l1 props) (VObject l1 props) s) = VBool true
  /\ suite.assertSame (VObject l1 props) (VObject l2 props') new_suite
     = mkSuite (VBool false) VUndefined (VObject l1 props) (VObject l2 props')
         (VBool true) ∅
  /\ (exists st,
        run None (lone (does n (suite.assertEquals (VObject l1 props) (VObject l2 props)
                                  VUndefined))) = (Ok (), st)
        /\ passed (getValue st) = 1%nat /\ failed (getValue st) = 0%nat
        /\ details (getValue st) = {[ "." +:+ n := VBool true ]})
  /\ (exists st,
        run None (lone (does n (suite.assertSame (VObject l1 props) (VObject l2 props))))
        = (Ok (), st)
        /\ passed (getValue st) = 0%nat /\ failed (getValue st) = 1%nat
        /\ details (getValue st)
           = {[ "." +:+ n := expected_actual (VObject l1 props) (VObject l2 props) ]}).
Proof.
  intros Hdistinct Hopen _ _.
  assert (Hequals :
    suite.assertEquals (VObject l1 props) (VObject l2 props) VUndefined new_suite
    = set_result (VBool true) new_suite).
  { unfold suite.assertEquals. cbn [typeof String.eqb Ascii.eqb Bool.eqb to_boolean].
    rewrite (json_text_ignores_address l1 l2).
    destruct (JSON_stringify_object l2 props) as [t ->].
    cbn [strict_eq]. now rewrite String.eqb_refl. }
  assert (Hsame : forall p p',
    suite.assertSame (VObject l1 p) (VObject l2 p') new_suite
    = mkSuite (VBool false) VUndefined (VObject l1 p) (VObject l2 p') (VBool true) ∅).
  { intros p p'. unfold suite.assertSame, loose_eq. cbn [type_of type_eqb strict_eq].
    apply Nat.eqb_neq in Hdistinct. now rewrite Hdistinct. }
  split.
  { unfold suite.assertEquals. cbv zeta. cbn [to_boolean].
    now apply setResult_result_open. }
  split.
  { intros Hdiffer. unfold suite.assertEquals. cbv zeta. cbn [to_boolean].
    fold (serialized e) (serialized a). rewrite Hdiffer.
    unfold setResult. rewrite Hopen. now split. }
  split; [reflexivity|].
  split; [now rewrite Hequals|].
  split.
  { unfold suite.assertSame. rewrite setResult_result_open by assumption.
    unfold loose_eq. cbn [type_of type_eqb strict_eq]. now rewrite Nat.eqb_refl. }
  split; [apply Hsame|]. split.
  - destruct (lone_calls_report n
                (suite.assertEquals (VObject l1 props) (VObject l2 props) VUndefined))
      as (st & Hrun & _ & Hp & Hf & Hd).
    rewrite Hequals in Hp, Hf, Hd. now exists st.
  - destruct (lone_calls_report n
                (suite.assertSame (VObject l1 props) (VObject l2 props)))
      as (st & Hrun & _ & Hp & Hf & Hd).
    rewrite Hsame in Hp, Hf, Hd. now exists st.
Qed.

(** The same content in two objects, different content, and one object
    against the JSON text of another. *)
Lemma equals_compares_content_and_same_compares_references_witness :
  let one := VObject 1 [("a", VNum (Int 1))] in
  let other := VObject 2 [("a", VNum (Int 1))] in
  let two := VObject 3 [("a", VNum (Int 2))] in
  let flag := VObject 4 [("a", VBool true)] in
  result (suite.assertEquals one other VUndefined new_suite) = VBool true
  /\ result (suite.assertEquals one two VUndefined new_suite) = VBool false
  /\ result (suite.assertEquals flag (JSON_stringify flag) VUndefined new_suite)
     = VBool true
  /\ result (suite.assertSame one other new_suite) = VBool false
  /\ result (suite.assertSame one one new_suite) = VBool true.
Proof.
  intros one other two flag.
  assert (Hd : 1%nat <> 2%nat) by lia.
  pose proof (equals_compares_content_and_same_compares_references "t" 1%nat 2%nat
                [("a", VNum (Int 1))] [("a", VNum (Int 1))] one other new_suite
                Hd eq_refl eq_refl eq_refl) as (H1 & _ & _ & _ & H5 & H6 & _).
  pose proof (equals_compares_content_and_same_compares_references "t" 1%nat 2%nat
                [] [] one two new_suite Hd eq_refl eq_refl eq_refl) as (H2 & _).
  pose proof (equals_compares_content_and_same_compares_references "t" 1%nat 2%nat
                [] [] flag (JSON_stringify flag) new_suite Hd eq_refl eq_refl eq_refl)
    as (H3 & _).
  split; [exact H1|]. split; [exact H2|]. split; [exact H3|].
  split; [|exact H5]. unfold one, other. now rewrite H6.
Defined.

(** ** A test that rejects without an error *)

(** C5.  The code breaks the claim for a test that throws or rejects with
    [undefined] or [null] before a failure was recorded: the [catch]
    clause reads [e.name], which throws a [TypeError]; that error leaves
    the [try] statement and the unit test, the run rejects with it, the
    test is counted as executed but neither as passed nor as failed, has
    no entry in [details], and the test after it is not run.  A thrown
    error object, in contrast, is caught and recorded. *)
Theorem rejection_without_an_error_leaves_the_unit_test :
  let rejects (e : value) := mkFunc "t" (fun s => Throw e s) in
  let package_of (e : value) :=
    mkPackage None (Some [rejects e; does "u" suite.passed]) None [] in
  run None (package_of VUndefined)
  = (Err (TypeError "Cannot read properties of undefined (reading 'name')"),
     mkState (mkResults 1 0 0 ∅) new_suite 1 [EvTest "t" 0])
  /\ run None (package_of VNull)
     = (Err (TypeError "Cannot read properties of null (reading 'name')"),
        mkState (mkResults 1 0 0 ∅) new_suite 1 [EvTest "t" 0])
  /\ fst (run None (package_of (Error 1 "Error" "boom"))) = Ok ()
  /\ getValue (snd (run None (package_of (Error 1 "Error" "boom"))))
     = mkResults 2 1 1 (<[".u" := VBool true]> {[ ".t" := VStr "Error: boom" ]}).
Proof. cbv zeta. repeat split; vm_compute; reflexivity. Qed.
